(** * Real-time monitoring service: data model, operations and their properties

    Shallow embedding of [agents/agent_service/lib/monitoring_service.py]
    (class [RealTimeMonitoringService]).

    Conventions of the embedding:
    - Python numbers (metric values, clock readings, durations) are exact
      rationals [Q]; comparisons are the ones the code writes.  The
      rounding of floating-point sums, quotients and products is not part
      of the basic definitions; where a property depends on it, the
      definitions named [..._with] and [..._reads] take what the
      interpreter computes as an argument, and [round64] gives the
      binary64 rounding to evaluate them.
    - [time.time()] is an explicit argument [now] of every operation that
      reads the clock; one operation sees one clock value.
    - dictionaries are [gmap]s keyed by strings, [deque(maxlen=n)] is a list
      (oldest entry first) together with the append that trims on the left;
    - [asyncio.create_task] enqueues a [Task] on the event loop's queue,
      which [run_task] later executes;
    - every operation that can reach [_create_alert] also returns the list of
      [Alert] records built during the call, in creation order. *)

From Stdlib Require Import QArith Qround.
From stdpp Require Import gmap strings list fin_maps pretty.

Local Open Scope Z_scope.

(** ** Numbers *)

(** [a >= b], [a > b] and [a < b] on Python numbers. *)
Definition Qgeb (a b : Q) : bool := Qle_bool b a.
Definition Qgtb (a b : Q) : bool := negb (Qle_bool a b).
Definition Qltb (a b : Q) : bool := negb (Qle_bool b a).

(** [int(x)]: truncation towards zero. *)
Definition py_int (x : Q) : Z :=
  if Qle_bool 0 x then Qfloor x else Qceiling x.

(** [int(x // d)] for a positive integer constant [d]. *)
Definition floor_div (x : Q) (d : Z) : Z := Qfloor (x / inject_Z d).

(** [sum(values)], [min(values)], [max(values)] on a list of numbers. *)
Definition py_sum (values : list Q) : Q := foldl Qplus (0 # 1)%Q values.

(** Python's [min] keeps the first of equal candidates: the running result
    is replaced only by a strictly smaller item. *)
Definition py_min (values : list Q) : option Q :=
  match values with
  | [] => None
  | v :: rest => Some (foldl (λ acc x, if Qltb x acc then x else acc) v rest)
  end.

Definition py_max (values : list Q) : option Q :=
  match values with
  | [] => None
  | v :: rest => Some (foldl (λ acc x, if Qgtb x acc then x else acc) v rest)
  end.

(** [xs[-n:]] for [n > 0]. *)
Definition py_last_n {A} (n : nat) (xs : list A) : list A :=
  drop (length xs - n)%nat xs.

(** ** Bounded deques *)

(** [deque.append] on a deque created with [maxlen]: the item is added on
    the right, then the deque is trimmed on the left when it is over
    capacity. *)
Definition deque_append {A} (maxlen : N) (x : A) (d : list A) : list A :=
  let d' := d ++ [x] in
  if (maxlen <? N.of_nat (length d'))%N then drop 1 d' else d'.

(** ** Data model *)

Inductive MetricType := COUNTER | GAUGE | HISTOGRAM | TIMER.

Inductive AlertLevel := INFO | WARNING | ERROR | CRITICAL.

Definition AlertLevel_eqb (a b : AlertLevel) : bool :=
  match a, b with
  | INFO, INFO | WARNING, WARNING | ERROR, ERROR | CRITICAL, CRITICAL => true
  | _, _ => false
  end.

Record Metric := {
  metric_name : string;
  metric_value : Q;
  metric_timestamp : Q;
  metric_tags : gmap string string;
  metric_type : MetricType
}.

(** The f-string of an alert message, kept as its template and arguments. *)
Inductive Message :=
| MsgCriticallyHigh (name : string) (value : Q)
| MsgAboveWarning (name : string) (value : Q)
| MsgSlowExecution (execution_id : string) (duration_ms : Q)
| MsgHighErrorRate (avg_error_rate : Q).

(** The metadata dictionaries the code attaches to alerts. *)
Inductive Metadata :=
| MetaMetric (m : Metric)
| MetaExecution (execution_id : string) (duration_ms : Q)
| MetaErrorRate (error_rate : Q) (sample_size : nat).

Record Alert := {
  alert_id : string;
  alert_level : AlertLevel;
  alert_title : string;
  alert_message : Message;
  alert_timestamp : Q;
  alert_resolved : bool;
  alert_metadata : Metadata
}.

Record FunctionCall := {
  fc_function : string;
  fc_duration_ms : Q;
  fc_timestamp : Q;
  fc_success : bool
}.

Record PerformanceProfile := {
  execution_id : string;
  start_time : Q;
  end_time : option Q;
  duration_ms : option Q;
  cpu_usage : Q;
  memory_usage_mb : Q;
  network_io_kb : Q;
  disk_io_kb : Q;
  function_calls : list FunctionCall;
  bottlenecks : list string
}.

(** An entry of [active_executions]. *)
Record Execution := {
  ex_start_time : Q;
  ex_metadata : gmap string string;
  ex_status : string;
  ex_end_time : option Q;
  ex_error : option string
}.

(** An entry of a sliding window. *)
Record WindowPoint := {
  wp_timestamp : Z;
  wp_avg : Q;
  wp_min : Q;
  wp_max : Q;
  wp_count : nat
}.

Record Thresholds := { th_warning : Q; th_critical : Q }.

(** A coroutine handed to [asyncio.create_task]. *)
Inductive Task :=
| CheckMetricThresholds (m : Metric)
| CreateAlert (level : AlertLevel) (title : string) (message : Message)
    (metadata : Metadata).

Record Service := {
  metrics_buffer : list Metric;
  alerts : gmap string Alert;
  active_executions : gmap string Execution;
  performance_profiles : gmap string PerformanceProfile;
  minute_metrics : gmap string (list WindowPoint);
  hour_metrics : gmap string (list WindowPoint);
  day_metrics : gmap string (list WindowPoint);
  websocket_connections : gset nat;
  alert_thresholds : gmap string Thresholds;
  (** detached tasks created by the service and not yet run *)
  pending_tasks : list Task
}.

Definition METRICS_MAXLEN : N := 10000.
Definition MINUTE_MAXLEN : N := 60.
Definition HOUR_MAXLEN : N := 60.
Definition DAY_MAXLEN : N := 24.

Definition default_thresholds : gmap string Thresholds :=
  <["response_time_ms" := {| th_warning := 2000 # 1; th_critical := 5000 # 1 |}]>
  (<["error_rate" := {| th_warning := 5 # 100; th_critical := 1 # 10 |}]>
  (<["memory_usage_mb" := {| th_warning := 512 # 1; th_critical := 1024 # 1 |}]>
  (<["cpu_usage_percent" := {| th_warning := 80 # 1; th_critical := 95 # 1 |}]>
   ∅))).

(** [RealTimeMonitoringService.__init__] *)
Definition new_service : Service := {|
  metrics_buffer := [];
  alerts := ∅;
  active_executions := ∅;
  performance_profiles := ∅;
  minute_metrics := ∅;
  hour_metrics := ∅;
  day_metrics := ∅;
  websocket_connections := ∅;
  alert_thresholds := default_thresholds;
  pending_tasks := []
|}.

(** Field updates. *)
Definition set_metrics_buffer (b : list Metric) (s : Service) : Service :=
  {| metrics_buffer := b; alerts := alerts s;
     active_executions := active_executions s;
     performance_profiles := performance_profiles s;
     minute_metrics := minute_metrics s; hour_metrics := hour_metrics s;
     day_metrics := day_metrics s;
     websocket_connections := websocket_connections s;
     alert_thresholds := alert_thresholds s;
     pending_tasks := pending_tasks s |}.

Definition set_alerts (a : gmap string Alert) (s : Service) : Service :=
  {| metrics_buffer := metrics_buffer s; alerts := a;
     active_executions := active_executions s;
     performance_profiles := performance_profiles s;
     minute_metrics := minute_metrics s; hour_metrics := hour_metrics s;
     day_metrics := day_metrics s;
     websocket_connections := websocket_connections s;
     alert_thresholds := alert_thresholds s;
     pending_tasks := pending_tasks s |}.

Definition set_active_executions (a : gmap string Execution) (s : Service)
  : Service :=
  {| metrics_buffer := metrics_buffer s; alerts := alerts s;
     active_executions := a;
     performance_profiles := performance_profiles s;
     minute_metrics := minute_metrics s; hour_metrics := hour_metrics s;
     day_metrics := day_metrics s;
     websocket_connections := websocket_connections s;
     alert_thresholds := alert_thresholds s;
     pending_tasks := pending_tasks s |}.

Definition set_performance_profiles (p : gmap string PerformanceProfile)
  (s : Service) : Service :=
  {| metrics_buffer := metrics_buffer s; alerts := alerts s;
     active_executions := active_executions s;
     performance_profiles := p;
     minute_metrics := minute_metrics s; hour_metrics := hour_metrics s;
     day_metrics := day_metrics s;
     websocket_connections := websocket_connections s;
     alert_thresholds := alert_thresholds s;
     pending_tasks := pending_tasks s |}.

Definition set_minute_metrics (w : gmap string (list WindowPoint))
  (s : Service) : Service :=
  {| metrics_buffer := metrics_buffer s; alerts := alerts s;
     active_executions := active_executions s;
     performance_profiles := performance_profiles s;
     minute_metrics := w; hour_metrics := hour_metrics s;
     day_metrics := day_metrics s;
     websocket_connections := websocket_connections s;
     alert_thresholds := alert_thresholds s;
     pending_tasks := pending_tasks s |}.

Definition set_websocket_connections (w : gset nat) (s : Service) : Service :=
  {| metrics_buffer := metrics_buffer s; alerts := alerts s;
     active_executions := active_executions s;
     performance_profiles := performance_profiles s;
     minute_metrics := minute_metrics s; hour_metrics := hour_metrics s;
     day_metrics := day_metrics s;
     websocket_connections := w;
     alert_thresholds := alert_thresholds s;
     pending_tasks := pending_tasks s |}.

Definition set_pending_tasks (t : list Task) (s : Service) : Service :=
  {| metrics_buffer := metrics_buffer s; alerts := alerts s;
     active_executions := active_executions s;
     performance_profiles := performance_profiles s;
     minute_metrics := minute_metrics s; hour_metrics := hour_metrics s;
     day_metrics := day_metrics s;
     websocket_connections := websocket_connections s;
     alert_thresholds := alert_thresholds s;
     pending_tasks := t |}.

(** ** Metric ingestion *)

(** [record_metric]: builds the metric stamped with the clock, appends it
    to the ring buffer and spawns the detached threshold check. *)
Definition record_metric (name : string) (value : Q)
  (tags : gmap string string) (mtype : MetricType) (now : Q) (s : Service)
  : Service :=
  let metric := {| metric_name := name; metric_value := value;
                   metric_timestamp := now; metric_tags := tags;
                   metric_type := mtype |} in
  let s := set_metrics_buffer
             (deque_append METRICS_MAXLEN metric (metrics_buffer s)) s in
  set_pending_tasks (pending_tasks s ++ [CheckMetricThresholds metric]) s.

(** ** Fan-out to subscribers *)

(** The delivery loop shared by [_broadcast_alert] and [_broadcast_updates]:
    nothing happens without subscribers; otherwise every connection whose
    [send] fails is discarded.  [send_ok w] tells whether the body of the
    [try] succeeds for connection [w]. *)
Definition broadcast (send_ok : nat → bool) (s : Service) : Service :=
  if decide (websocket_connections s = ∅) then s
  else set_websocket_connections
         (filter (λ w, send_ok w = true) (websocket_connections s)) s.

Definition _broadcast_alert (send_ok : nat → bool) (a : Alert) (s : Service)
  : Service := broadcast send_ok s.

(** ** Alert creation *)

(** [f"alert-{int(time.time() * 1000)}"] *)
Definition make_alert_id (now : Q) : string :=
  "alert-" +:+ pretty (py_int (now * (1000 # 1))%Q).

(** [_create_alert]: the new record is stored under its id, then pushed to
    the subscribers.  Returns the record next to the new state. *)
Definition _create_alert (level : AlertLevel) (title : string)
  (message : Message) (metadata : Metadata)
  (send_ok : nat → bool) (now : Q) (s : Service) : Service * list Alert :=
  let aid := make_alert_id now in
  let alert := {| alert_id := aid; alert_level := level;
                  alert_title := title; alert_message := message;
                  alert_timestamp := now; alert_resolved := false;
                  alert_metadata := metadata |} in
  let s := set_alerts (<[aid := alert]> (alerts s)) s in
  (_broadcast_alert send_ok alert s, [alert]).

(** [_check_metric_thresholds] *)
Definition _check_metric_thresholds (metric : Metric)
  (send_ok : nat → bool) (now : Q) (s : Service) : Service * list Alert :=
  match alert_thresholds s !! metric_name metric with
  | Some thresholds =>
      if Qgeb (metric_value metric) (th_critical thresholds) then
        _create_alert CRITICAL ("Critical " +:+ metric_name metric)
          (MsgCriticallyHigh (metric_name metric) (metric_value metric))
          (MetaMetric metric) send_ok now s
      else if Qgeb (metric_value metric) (th_warning thresholds) then
        _create_alert WARNING ("High " +:+ metric_name metric)
          (MsgAboveWarning (metric_name metric) (metric_value metric))
          (MetaMetric metric) send_ok now s
      else (s, [])
  | None => (s, [])
  end.

(** One detached task run by the event loop. *)
Definition exec_task (t : Task) (send_ok : nat → bool) (now : Q) (s : Service)
  : Service * list Alert :=
  match t with
  | CheckMetricThresholds m => _check_metric_thresholds m send_ok now s
  | CreateAlert level title message metadata =>
      _create_alert level title message metadata send_ok now s
  end.

(** The event loop takes the oldest pending task and runs it. *)
Definition run_task (send_ok : nat → bool) (now : Q) (s : Service)
  : Service * list Alert :=
  match pending_tasks s with
  | [] => (s, [])
  | t :: rest => exec_task t send_ok now (set_pending_tasks rest s)
  end.

(** The event loop running up to [n] pending tasks in a row. *)
Fixpoint run_tasks (n : nat) (send_ok : nat → bool) (now : Q) (s : Service)
  : Service * list Alert :=
  match n with
  | O => (s, [])
  | S n' =>
      let '(s1, created1) := run_task send_ok now s in
      let '(s2, created2) := run_tasks n' send_ok now s1 in
      (s2, created1 ++ created2)
  end.

(** ** Execution profiling *)

Definition is_running (e : Execution) : bool := String.eqb (ex_status e) "running".

(** [len([e for e in self.active_executions.values() if e["status"] == "running"])] *)
Definition count_running (s : Service) : nat :=
  length (filter (λ e, is_running e = true) (map_to_list (active_executions s)).*2).

(** [start_execution_tracking] *)
Definition start_execution_tracking (eid : string)
  (metadata : gmap string string) (now : Q) (s : Service) : string * Service :=
  let profile := {| execution_id := eid; start_time := now;
                    end_time := None; duration_ms := None;
                    cpu_usage := 0; memory_usage_mb := 0;
                    network_io_kb := 0; disk_io_kb := 0;
                    function_calls := []; bottlenecks := [] |} in
  let s := set_performance_profiles
             (<[eid := profile]> (performance_profiles s)) s in
  let s := set_active_executions
             (<[eid := {| ex_start_time := now; ex_metadata := metadata;
                          ex_status := "running"; ex_end_time := None;
                          ex_error := None |}]> (active_executions s)) s in
  let s := record_metric "active_executions"
             (inject_Z (Z.of_nat (size (active_executions s))))
             {["type" := "execution_start"]} GAUGE now s in
  (eid, s).

(** Truth value of the optional [error] argument. *)
Definition truthy_error (error : option string) : bool :=
  match error with
  | None => false
  | Some e => negb (String.eqb e "")
  end.

(** [end_execution_tracking] *)
Definition end_execution_tracking (eid : string) (status : string)
  (error : option string) (now : Q) (s : Service) : Service :=
  match performance_profiles s !! eid with
  | None => s
  | Some profile =>
      let duration := ((now - start_time profile) * (1000 # 1))%Q in
      let profile := {| execution_id := execution_id profile;
                        start_time := start_time profile;
                        end_time := Some now;
                        duration_ms := Some duration;
                        cpu_usage := cpu_usage profile;
                        memory_usage_mb := memory_usage_mb profile;
                        network_io_kb := network_io_kb profile;
                        disk_io_kb := disk_io_kb profile;
                        function_calls := function_calls profile;
                        bottlenecks := bottlenecks profile |} in
      let s := set_performance_profiles
                 (<[eid := profile]> (performance_profiles s)) s in
      let s :=
        match active_executions s !! eid with
        | Some e =>
            set_active_executions
              (<[eid := {| ex_start_time := ex_start_time e;
                           ex_metadata := ex_metadata e;
                           ex_status := status;
                           ex_end_time := Some now;
                           ex_error := if truthy_error error then error
                                       else ex_error e |}]>
                 (active_executions s)) s
        | None => s
        end in
      let s := record_metric "execution_duration_ms" duration
                 (<["execution_id" := eid]> {["status" := status]})
                 TIMER now s in
      let s := record_metric "active_executions"
                 (inject_Z (Z.of_nat (count_running s)))
                 {["type" := "execution_end"]} GAUGE now s in
      if Qgtb duration (5000 # 1) then
        let profile := {| execution_id := execution_id profile;
                          start_time := start_time profile;
                          end_time := end_time profile;
                          duration_ms := duration_ms profile;
                          cpu_usage := cpu_usage profile;
                          memory_usage_mb := memory_usage_mb profile;
                          network_io_kb := network_io_kb profile;
                          disk_io_kb := disk_io_kb profile;
                          function_calls := function_calls profile;
                          bottlenecks := bottlenecks profile ++ ["slow_execution"] |} in
        let s := set_performance_profiles
                   (<[eid := profile]> (performance_profiles s)) s in
        set_pending_tasks
          (pending_tasks s ++
             [CreateAlert WARNING "Slow Execution Detected"
                (MsgSlowExecution eid duration) (MetaExecution eid duration)]) s
      else s
  end.

(** [str(success)] *)
Definition str_bool (b : bool) : string := if b then "True" else "False".

(** [record_function_call] *)
Definition record_function_call (eid : string) (function_name : string)
  (dur : Q) (success : bool) (now : Q) (s : Service) : Service :=
  match performance_profiles s !! eid with
  | Some profile =>
      let profile := {| execution_id := execution_id profile;
                        start_time := start_time profile;
                        end_time := end_time profile;
                        duration_ms := duration_ms profile;
                        cpu_usage := cpu_usage profile;
                        memory_usage_mb := memory_usage_mb profile;
                        network_io_kb := network_io_kb profile;
                        disk_io_kb := disk_io_kb profile;
                        function_calls :=
                          function_calls profile ++
                            [{| fc_function := function_name;
                                fc_duration_ms := dur;
                                fc_timestamp := now;
                                fc_success := success |}];
                        bottlenecks := bottlenecks profile |} in
      let s := set_performance_profiles
                 (<[eid := profile]> (performance_profiles s)) s in
      record_metric "function_duration_ms" dur
        (<["function" := function_name]>
           (<["execution_id" := eid]> {["success" := str_bool success]}))
        TIMER now s
  | None => s
  end.

(** ** The fast heartbeat *)

(** [defaultdict(list)] filled by [d[m.name].append(proj m)] over [ms]. *)
Definition group_by_name {A} (proj : Metric → A) (ms : list Metric)
  : gmap string (list A) :=
  foldl (λ acc m, <[metric_name m :=
                      default [] (acc !! metric_name m) ++ [proj m]]> acc)
        ∅ ms.

(** [m for m in self.metrics_buffer if now - m.timestamp < horizon] *)
Definition recent_within (horizon : Q) (now : Q) (ms : list Metric)
  : list Metric :=
  filter (λ m, Qltb (now - metric_timestamp m)%Q horizon = true) ms.

(** [sum(values) / len(values)] *)
Definition py_mean (values : list Q) : Q :=
  (py_sum values / inject_Z (Z.of_nat (length values)))%Q.

(** [_process_alerts] *)
Definition _process_alerts (recent_metrics : list Metric)
  (send_ok : nat → bool) (now : Q) (s : Service) : Service * list Alert :=
  let metrics_by_name := group_by_name (λ m, m) recent_metrics in
  let error_metrics := default [] (metrics_by_name !! "error_rate") in
  if (5 <=? length error_metrics)%nat then
    let recent_errors := metric_value <$> py_last_n 5 error_metrics in
    let avg_error_rate := py_mean recent_errors in
    if Qgtb avg_error_rate (1 # 10) then
      _create_alert CRITICAL "High Error Rate Detected"
        (MsgHighErrorRate avg_error_rate)
        (MetaErrorRate avg_error_rate (length recent_errors))
        send_ok now s
    else (s, [])
  else (s, []).

(** The aggregate stored for one metric name. *)
Definition window_point (bucket : Z) (values : list Q) : WindowPoint :=
  {| wp_timestamp := bucket;
     wp_avg := py_mean values;
     wp_min := default 0%Q (py_min values);
     wp_max := default 0%Q (py_max values);
     wp_count := length values |}.

(** [_update_aggregations].  [current_hour] and [current_day] are computed
    by the code and not used afterwards; the hour and day windows are not
    written. *)
Definition _update_aggregations (now : Q) (s : Service) : Service :=
  let current_minute := floor_div now 60 in
  let minute_values :=
    group_by_name metric_value
      (filter (λ m, floor_div (metric_timestamp m) 60 = current_minute)
              (metrics_buffer s)) in
  set_minute_metrics
    (map_fold
       (λ name values windows,
          match values with
          | [] => windows
          | _ => <[name := deque_append MINUTE_MAXLEN
                             (window_point (current_minute * 60) values)
                             (default [] (windows !! name))]> windows
          end)
       (minute_metrics s) minute_values) s.

(** One entry of the metrics summary. *)
Record Summary := {
  sm_avg : Q;
  sm_min : Q;
  sm_max : Q;
  sm_count : nat;
  sm_latest : Q
}.

(** [_get_metrics_summary] *)
Definition _get_metrics_summary (now : Q) (s : Service)
  : gmap string Summary * Service :=
  let recent_metrics := recent_within (60 # 1) now (metrics_buffer s) in
  match recent_metrics with
  | [] => (∅, s)
  | _ =>
      let by_name := group_by_name metric_value recent_metrics in
      ((λ values, {| sm_avg := py_mean values;
                     sm_min := default 0%Q (py_min values);
                     sm_max := default 0%Q (py_max values);
                     sm_count := length values;
                     sm_latest := default 0%Q (last values) |}) <$> by_name,
       s)
  end.

(** The payload of [_broadcast_updates]. *)
Record Update := {
  up_timestamp : Q;
  up_active_executions : nat;
  up_recent_alerts : nat;
  up_metrics_summary : gmap string Summary
}.

Definition update_payload (now : Q) (s : Service) : Update :=
  {| up_timestamp := now;
     up_active_executions := count_running s;
     up_recent_alerts :=
       length (filter (λ a, alert_resolved a = false ∧
                            Qltb (now - alert_timestamp a)%Q (300 # 1) = true)
                      (map_to_list (alerts s)).*2);
     up_metrics_summary := (_get_metrics_summary now s).1 |}.

(** [_broadcast_updates] *)
Definition _broadcast_updates (send_ok : nat → bool) (now : Q) (s : Service)
  : Service := broadcast send_ok s.

(** The body of one iteration of [_monitoring_loop], after the sleep. *)
Definition monitoring_tick (send_ok : nat → bool) (now : Q) (s : Service)
  : Service * list Alert :=
  let recent_metrics := recent_within (60 # 1) now (metrics_buffer s) in
  let '(s, created) := _process_alerts recent_metrics send_ok now s in
  let s := _update_aggregations now s in
  let s := _broadcast_updates send_ok now s in
  (s, created).

(** ** The heartbeat with the interpreter's arithmetic

    The definitions above compute with exact rationals and read the clock
    once per call.  The ones below leave to their caller what the
    interpreter computes in binary floating point, so that what is proved
    of them does not depend on how it rounds: [mean values] stands for the
    float [sum(values) / len(values)], and a [ClockReads] gives the two
    clock reads of [_create_alert].  Floats are the rationals they denote;
    comparing two of them is exact. *)

(** The float written [0.1]: the double nearest to one tenth. *)
Definition DOUBLE_0_1 : Q := 3602879701896397 # 36028797018963968.

(** The clock as [_create_alert] reads it: [int(time.time() * 1000)] for
    the id, then [time.time()] for the timestamp. *)
Record ClockReads := {
  read_ms : Z;
  read_timestamp : Q
}.

(** [_create_alert] *)
Definition _create_alert_reads (level : AlertLevel) (title : string)
  (message : Message) (metadata : Metadata)
  (send_ok : nat → bool) (reads : ClockReads) (s : Service)
  : Service * list Alert :=
  let aid := "alert-" +:+ pretty (read_ms reads) in
  let alert := {| alert_id := aid; alert_level := level;
                  alert_title := title; alert_message := message;
                  alert_timestamp := read_timestamp reads;
                  alert_resolved := false;
                  alert_metadata := metadata |} in
  let s := set_alerts (<[aid := alert]> (alerts s)) s in
  (_broadcast_alert send_ok alert s, [alert]).

(** [_process_alerts] *)
Definition _process_alerts_with (mean : list Q → Q) (reads : ClockReads)
  (recent_metrics : list Metric) (send_ok : nat → bool) (s : Service)
  : Service * list Alert :=
  let metrics_by_name := group_by_name (λ m, m) recent_metrics in
  let error_metrics := default [] (metrics_by_name !! "error_rate") in
  if (5 <=? length error_metrics)%nat then
    let recent_errors := metric_value <$> py_last_n 5 error_metrics in
    let avg_error_rate := mean recent_errors in
    if Qgtb avg_error_rate DOUBLE_0_1 then
      _create_alert_reads CRITICAL "High Error Rate Detected"
        (MsgHighErrorRate avg_error_rate)
        (MetaErrorRate avg_error_rate (length recent_errors))
        send_ok reads s
    else (s, [])
  else (s, []).

(** The aggregate stored for one metric name. *)
Definition window_point_with (mean : list Q → Q) (bucket : Z)
  (values : list Q) : WindowPoint :=
  {| wp_timestamp := bucket;
     wp_avg := mean values;
     wp_min := default 0%Q (py_min values);
     wp_max := default 0%Q (py_max values);
     wp_count := length values |}.

(** [_update_aggregations] *)
Definition _update_aggregations_with (mean : list Q → Q) (now : Q)
  (s : Service) : Service :=
  let current_minute := floor_div now 60 in
  let minute_values :=
    group_by_name metric_value
      (filter (λ m, floor_div (metric_timestamp m) 60 = current_minute)
              (metrics_buffer s)) in
  set_minute_metrics
    (map_fold
       (λ name values windows,
          match values with
          | [] => windows
          | _ => <[name := deque_append MINUTE_MAXLEN
                             (window_point_with mean (current_minute * 60)
                                values)
                             (default [] (windows !! name))]> windows
          end)
       (minute_metrics s) minute_values) s.

(** The body of one iteration of [_monitoring_loop], after the sleep. *)
Definition monitoring_tick_with (mean : list Q → Q) (reads : ClockReads)
  (send_ok : nat → bool) (now : Q) (s : Service) : Service * list Alert :=
  let recent_metrics := recent_within (60 # 1) now (metrics_buffer s) in
  let '(s, created) :=
    _process_alerts_with mean reads recent_metrics send_ok s in
  let s := _update_aggregations_with mean now s in
  let s := _broadcast_updates send_ok now s in
  (s, created).

(** *** Binary64 arithmetic on the rationals *)

(** The integer nearest to [x], the even one of two equally near. *)
Definition round_half_even (x : Q) : Z :=
  let f := Qfloor x in
  match ((x - inject_Z f) ?= 1 # 2)%Q with
  | Lt => f
  | Gt => f + 1
  | Eq => if Z.even f then f else f + 1
  end.

(** [2 ^ e] for any integer [e]. *)
Definition pow2 (e : Z) : Q :=
  if (0 <=? e)%Z then inject_Z (2 ^ e) else (1 / inject_Z (2 ^ (- e)))%Q.

(** The integer [e] with [2 ^ e <= a < 2 ^ (e + 1)], for [a > 0]. *)
Definition binade (a : Q) : Z :=
  let e0 := Z.log2 (Qnum a) - Z.log2 (Zpos (Qden a)) in
  if Qle_bool (pow2 e0) a then e0 else e0 - 1.

(** Rounding to the nearest double, ties to even: 53 significant bits,
    steps of [2 ^ -1074] near zero.  Results beyond the largest double,
    which the interpreter turns into infinities, are not modelled. *)
Definition round64 (q : Q) : Q :=
  if Qeq_bool q 0 then 0%Q
  else
    let a := if Qle_bool 0 q then q else (- q)%Q in
    let step := pow2 (Z.max (binade a - 52) (-1074)) in
    let r := (inject_Z (round_half_even (a / step)) * step)%Q in
    Qred (if Qle_bool 0 q then r else (- r)%Q).

(** [sum(values) / len(values)] on floats as CPython computes it up to
    version 3.11: the sum is a fold from the left, each addition rounded,
    and the quotient is rounded once.  (From 3.12 on [sum] compensates the
    rounding errors of the additions.) *)
Definition float_mean (values : list Q) : Q :=
  round64 (foldl (λ acc x, round64 (acc + x)) 0%Q values
           / inject_Z (Z.of_nat (length values))).

(** [int(t * 1000)] on a float [t]: the product is rounded, then
    truncated. *)
Definition float_ms (t : Q) : Z := py_int (round64 (t * (1000 # 1))).

(** The clock reads of an alert creation whose two reads both return the
    float [t]. *)
Definition reads_at (t : Q) : ClockReads :=
  {| read_ms := float_ms t; read_timestamp := t |}.

(** ** Queries *)

(** [_generate_performance_recommendations] *)
Definition _generate_performance_recommendations (profile : PerformanceProfile)
  : list string :=
  let r1 :=
    match duration_ms profile with
    | Some d => if negb (Qeq_bool d 0) && Qgtb d (3000 # 1)
                then ["Consider optimizing execution flow - duration exceeds 3 seconds"]
                else []
    | None => []
    end in
  let r2 :=
    if Qgtb (memory_usage_mb profile) (256 # 1)
    then ["High memory usage detected - consider memory optimization"]
    else [] in
  let slow_functions :=
    filter (λ fc, Qgtb (fc_duration_ms fc) (1000 # 1) = true)
           (function_calls profile) in
  let r3 :=
    match slow_functions with
    | [] => []
    | _ => ["Optimize slow functions: " +:+
              String.concat ", " (fc_function <$> slow_functions)]
    end in
  let r4 :=
    if (100 <? length (function_calls profile))%nat
    then ["High number of function calls - consider batching or caching"]
    else [] in
  r1 ++ r2 ++ r3 ++ r4.

Record Report := {
  rp_execution_id : string;
  rp_performance_profile : PerformanceProfile;
  (** [None] stands for the empty dictionary default *)
  rp_execution_metadata : option Execution;
  rp_recommendations : list string
}.

(** [get_performance_report] *)
Definition get_performance_report (eid : string) (s : Service)
  : option Report * Service :=
  match performance_profiles s !! eid with
  | None => (None, s)
  | Some profile =>
      (Some {| rp_execution_id := eid;
               rp_performance_profile := profile;
               rp_execution_metadata := active_executions s !! eid;
               rp_recommendations :=
                 _generate_performance_recommendations profile |}, s)
  end.

Record Health := {
  h_status : string;
  h_timestamp : Q;
  h_active_executions : nat;
  h_recent_errors : nat;
  h_critical_alerts : nat;
  h_websocket_connections : nat;
  h_metrics_buffer_size : nat;
  h_uptime_seconds : Q;
  h_performance_profiles : nat
}.

(** [a.level == AlertLevel.CRITICAL and not a.resolved] *)
Definition unresolved_critical (a : Alert) : bool :=
  AlertLevel_eqb (alert_level a) CRITICAL && negb (alert_resolved a).

(** [get_system_health] *)
Definition get_system_health (now : Q) (s : Service) : Health * Service :=
  let recent_metrics := recent_within (300 # 1) now (metrics_buffer s) in
  let active := count_running s in
  let recent_errors :=
    length (filter (λ m, String.eqb (metric_name m) "error_rate" &&
                         Qgtb (metric_value m) 0 = true) recent_metrics) in
  let critical_alerts :=
    length (filter (λ a, unresolved_critical a = true)
                   (map_to_list (alerts s)).*2) in
  let health_status :=
    if (0 <? critical_alerts)%nat then "critical"
    else if (5 <? recent_errors)%nat then "degraded"
    else if (50 <? active)%nat then "under_load"
    else "healthy" in
  ({| h_status := health_status;
      h_timestamp := now;
      h_active_executions := active;
      h_recent_errors := recent_errors;
      h_critical_alerts := critical_alerts;
      h_websocket_connections := size (websocket_connections s);
      h_metrics_buffer_size := length (metrics_buffer s);
      h_uptime_seconds := (now - (now - (3600 # 1)))%Q;
      h_performance_profiles := size (performance_profiles s) |}, s).

(** ** Sequences of ingestion calls *)

(** The arguments and clock reading of one [record_metric] call. *)
Record MetricCall := {
  mc_name : string;
  mc_value : Q;
  mc_tags : gmap string string;
  mc_type : MetricType;
  mc_now : Q
}.

Definition metric_of_call (c : MetricCall) : Metric :=
  {| metric_name := mc_name c; metric_value := mc_value c;
     metric_timestamp := mc_now c; metric_tags := mc_tags c;
     metric_type := mc_type c |}.

Definition record_call (s : Service) (c : MetricCall) : Service :=
  record_metric (mc_name c) (mc_value c) (mc_tags c) (mc_type c) (mc_now c) s.

Definition record_all (calls : list MetricCall) (s : Service) : Service :=
  foldl record_call s calls.


(** ** Vocabulary of the properties *)

(** The outcome [r] of an operation started in state [s] consists of one
    alert creation at [level]: one record was built, unresolved, and the
    alert table of the new state is the old one with that record stored
    under its id. *)
Definition creates_one (level : AlertLevel) (s : Service)
  (r : Service * list Alert) : Prop :=
  ∃ a, r.2 = [a] ∧ alert_level a = level ∧ alert_resolved a = false ∧
       alerts r.1 = <[alert_id a := a]> (alerts s).

(** A subscriber oracle under which every delivery succeeds. *)
Definition all_delivered : nat → bool := λ _, true.

(** A metric as [record_metric] builds it. *)
Definition sample (name : string) (value now : Q) : Metric :=
  {| metric_name := name; metric_value := value; metric_timestamp := now;
     metric_tags := ∅; metric_type := GAUGE |}.

(** Health is critical exactly when an unresolved CRITICAL alert younger
    than one hour is in the alert table. *)
Definition health_critical_iff_recent (now : Q) (s : Service) : Prop :=
  h_status (get_system_health now s).1 = "critical" ↔
  ∃ (aid : string) (a : Alert),
    alerts s !! aid = Some a ∧ alert_level a = CRITICAL ∧
    alert_resolved a = false ∧ (now - alert_timestamp a < 3600 # 1)%Q.

(** A service whose only alert is a CRITICAL one created at time 0. *)
Definition stale_alert_service : Service :=
  (_create_alert CRITICAL "High Error Rate Detected"
     (MsgHighErrorRate (1 # 2)) (MetaErrorRate (1 # 2) 5)
     all_delivered 0 new_service).1.

(** The function-call lists of all profiles, by execution id. *)
Definition call_lists (s : Service) : gmap string (list FunctionCall) :=
  function_calls <$> performance_profiles s.

(** A duration that is set survives a further [end_execution_tracking]. *)
Definition end_keeps_duration (eid status : string) (error : option string)
  (now : Q) (s : Service) : Prop :=
  ∀ (p : PerformanceProfile) (d : Q),
    performance_profiles s !! eid = Some p → duration_ms p = Some d →
    ∃ (p' : PerformanceProfile) (d' : Q),
      performance_profiles (end_execution_tracking eid status error now s)
        !! eid = Some p' ∧
      duration_ms p' = Some d' ∧ (d' == d)%Q.

(** An unknown id is a no-op, and a set duration is never changed again. *)
Definition end_sets_duration_once (eid status : string)
  (error : option string) (now : Q) (s : Service) : Prop :=
  (performance_profiles s !! eid = None →
   end_execution_tracking eid status error now s = s) ∧
  end_keeps_duration eid status error now s.

(** A start for an id that already has a profile keeps that profile. *)
Definition duplicate_start_rejected (eid : string)
  (metadata : gmap string string) (now : Q) (s : Service) : Prop :=
  ∀ p : PerformanceProfile,
    performance_profiles s !! eid = Some p →
    performance_profiles (start_execution_tracking eid metadata now s).2
      !! eid = Some p.

(** The profile [start_execution_tracking] stores. *)
Definition fresh_profile (eid : string) (now : Q) : PerformanceProfile :=
  {| execution_id := eid; start_time := now; end_time := None;
     duration_ms := None; cpu_usage := 0; memory_usage_mb := 0;
     network_io_kb := 0; disk_io_kb := 0; function_calls := [];
     bottlenecks := [] |}.

(** The entry [record_function_call] appends. *)
Definition call_entry (function_name : string) (dur : Q) (success : bool)
  (now : Q) : FunctionCall :=
  {| fc_function := function_name; fc_duration_ms := dur;
     fc_timestamp := now; fc_success := success |}.

(** Function calls are recorded for active executions only: the entry is
    appended while the execution has not ended; for an ended execution and
    for an unknown id every profile's list stays as it is. *)
Definition calls_recorded_only_when_active (eid function_name : string)
  (dur : Q) (success : bool) (now : Q) (s : Service) : Prop :=
  let s' := record_function_call eid function_name dur success now s in
  (∀ p : PerformanceProfile,
     performance_profiles s !! eid = Some p → end_time p = None →
     call_lists s' !! eid
     = Some (function_calls p ++ [call_entry function_name dur success now])) ∧
  (∀ p : PerformanceProfile,
     performance_profiles s !! eid = Some p → end_time p ≠ None →
     call_lists s' = call_lists s) ∧
  (performance_profiles s !! eid = None → call_lists s' = call_lists s).

(** Execution "e1" started at time 0. *)
Definition started_service : Service :=
  (start_execution_tracking "e1" ∅ 0 new_service).2.

(** Execution "e1" started at time 0 and ended at time 1. *)
Definition ended_service : Service :=
  end_execution_tracking "e1" "completed" None 1 started_service.

(** Execution "e1" started at time 0, with one function call recorded. *)
Definition profiled_service : Service :=
  record_function_call "e1" "agent_manager.execute_agent" (250 # 1) true 1
    started_service.

(** Two metrics above their critical thresholds recorded one after the
    other, their detached checks still pending. *)
Definition two_breaches_service : Service :=
  record_metric "cpu_usage_percent" (99 # 1) ∅ GAUGE (10002 # 10000)
    (record_metric "response_time_ms" (6000 # 1) ∅ TIMER (10001 # 10000)
       new_service).

(** The samples of the designated metric among [ms], oldest first. *)
Definition error_rate_samples (ms : list Metric) : list Metric :=
  filter (λ m, metric_name m = "error_rate") ms.

(** The mean of the values of the (up to) five last items of [samples]. *)
Definition mean_of_last_5 (samples : list Metric) : Q :=
  py_mean (metric_value <$> py_last_n 5 samples).

(** The tick raises a pattern alert exactly when the mean of the five most
    recent "error_rate" samples of the buffer, as the interpreter computes
    it, exceeds 0.10. *)
Definition pattern_alert_on_latest_mean (mean : list Q → Q)
  (reads : ClockReads) (send_ok : nat → bool) (now : Q) (s : Service)
  : Prop :=
  let r := monitoring_tick_with mean reads send_ok now s in
  let avg :=
    mean (metric_value <$>
            py_last_n 5 (error_rate_samples (metrics_buffer s))) in
  ((DOUBLE_0_1 < avg)%Q → creates_one CRITICAL s r) ∧
  (¬ (DOUBLE_0_1 < avg)%Q → r.2 = []).

(** Five "error_rate" samples of value 0.5 recorded at time 0. *)
Definition error_burst_service : Service :=
  record_all
    (replicate 5 {| mc_name := "error_rate"; mc_value := 1 # 2;
                    mc_tags := ∅; mc_type := GAUGE; mc_now := 0 |})
    new_service.

(** Replacing the threshold table. *)
Definition set_alert_thresholds (t : gmap string Thresholds) (s : Service)
  : Service :=
  {| metrics_buffer := metrics_buffer s; alerts := alerts s;
     active_executions := active_executions s;
     performance_profiles := performance_profiles s;
     minute_metrics := minute_metrics s; hour_metrics := hour_metrics s;
     day_metrics := day_metrics s;
     websocket_connections := websocket_connections s;
     alert_thresholds := t;
     pending_tasks := pending_tasks s |}.

(** The values of the metrics of [ms] called [name], oldest first. *)
Definition values_named (name : string) (ms : list Metric) : list Q :=
  metric_value <$> filter (λ m, metric_name m = name) ms.

(** The metrics of [ms] stamped in the calendar minute of [now]. *)
Definition in_current_minute (now : Q) (ms : list Metric) : list Metric :=
  filter (λ m, floor_div (metric_timestamp m) 60 = floor_div now 60) ms.

(** [wp] carries the count, average, minimum and maximum of [values]. *)
Definition is_aggregate (values : list Q) (wp : WindowPoint) : Prop :=
  wp_count wp = length values ∧
  (wp_avg wp * inject_Z (Z.of_nat (length values)) == py_sum values)%Q ∧
  wp_min wp ∈ values ∧ (∀ v, v ∈ values → (wp_min wp <= v)%Q) ∧
  wp_max wp ∈ values ∧ (∀ v, v ∈ values → (v <= wp_max wp)%Q).



(** One sample recorded at time 59. *)
Definition late_sample_service : Service :=
  record_metric "cpu_usage_percent" (50 # 1) ∅ GAUGE (59 # 1) new_service.

(** The [i]-th of a run of distinct [record_metric] calls. *)
Definition numbered_call (i : nat) : MetricCall :=
  {| mc_name := "queue_depth"; mc_value := inject_Z (Z.of_nat i);
     mc_tags := ∅; mc_type := GAUGE; mc_now := inject_Z (Z.of_nat i) |}.

(** ** Subscribers *)

(** [register_websocket] *)
Definition register_websocket (ws : nat) (s : Service) : Service :=
  set_websocket_connections ({[ws]} ∪ websocket_connections s) s.

(** [unregister_websocket]: [set.discard]. *)
Definition unregister_websocket (ws : nat) (s : Service) : Service :=
  set_websocket_connections (websocket_connections s ∖ {[ws]}) s.

(** ** Housekeeping *)

(** [for key in keys: del d[key]] *)
Definition delete_all {V} (keys : list string) (d : gmap string V)
  : gmap string V :=
  foldl (λ acc k, delete k acc) d keys.

(** The body of one iteration of [_cleanup_loop], after the sleep.  Returns
    the numbers of removed profiles and alerts the code logs. *)
Definition cleanup_tick (now : Q) (s : Service) : (nat * nat) * Service :=
  let old_profiles :=
    (filter (λ kv, Qgtb (now - start_time kv.2)%Q (86400 # 1) = true)
            (map_to_list (performance_profiles s))).*1 in
  let s := set_performance_profiles
             (delete_all old_profiles (performance_profiles s)) s in
  let old_alerts :=
    (filter (λ kv, Qgtb (now - alert_timestamp kv.2)%Q (604800 # 1) = true)
            (map_to_list (alerts s))).*1 in
  let s := set_alerts (delete_all old_alerts (alerts s)) s in
  ((length old_profiles, length old_alerts), s).

(** ** Endpoints of [main.py] that read the service *)

Record ActiveAlerts := {
  aa_alerts : list Alert;
  aa_count : nat
}.

(** [get_active_alerts] ([GET /monitoring/alerts]) *)
Definition get_active_alerts (now : Q) (s : Service) : ActiveAlerts :=
  let active_alerts :=
    filter (λ a, alert_resolved a = false ∧
                 Qltb (now - alert_timestamp a)%Q (3600 # 1) = true)
           (map_to_list (alerts s)).*2 in
  {| aa_alerts := active_alerts; aa_count := length active_alerts |}.

(** [get_execution_report] ([GET /monitoring/execution/{execution_id}]):
    [inl 404] when the service has no report. *)
Definition get_execution_report (eid : string) (s : Service)
  : Z + Report :=
  match (get_performance_report eid s).1 with
  | None => inl 404
  | Some report => inr report
  end.

(** ** Histories of calls *)

(** The calls into the service, from the application, the event loop and
    the two heartbeats. *)
Inductive Op :=
| OpRecordMetric (name : string) (value : Q) (tags : gmap string string)
    (mtype : MetricType)
| OpStart (eid : string) (metadata : gmap string string)
| OpEnd (eid status : string) (error : option string)
| OpRecordCall (eid function_name : string) (dur : Q) (success : bool)
| OpRunTask (send_ok : nat → bool)
| OpTick (send_ok : nat → bool)
| OpCleanup
| OpRegister (ws : nat)
| OpUnregister (ws : nat).

(** One call at clock reading [now]. *)
Definition step (s : Service) (call : Op * Q) : Service :=
  let now := call.2 in
  match call.1 with
  | OpRecordMetric name value tags mtype =>
      record_metric name value tags mtype now s
  | OpStart eid metadata => (start_execution_tracking eid metadata now s).2
  | OpEnd eid status error => end_execution_tracking eid status error now s
  | OpRecordCall eid function_name dur success =>
      record_function_call eid function_name dur success now s
  | OpRunTask send_ok => (run_task send_ok now s).1
  | OpTick send_ok => (monitoring_tick send_ok now s).1
  | OpCleanup => (cleanup_tick now s).2
  | OpRegister ws => register_websocket ws s
  | OpUnregister ws => unregister_websocket ws s
  end.

Definition run (calls : list (Op * Q)) (s : Service) : Service :=
  foldl step s calls.

(** ** Vocabulary of the further properties *)

(** The capacities of the buffer and of the windows are respected, the
    hour and day windows are empty and the thresholds are those of
    [__init__]. *)
Definition bounded (s : Service) : Prop :=
  (N.of_nat (length (metrics_buffer s)) ≤ 10000)%N ∧
  (∀ name w, minute_metrics s !! name = Some w →
             w ≠ [] ∧ (N.of_nat (length w) ≤ 60)%N) ∧
  hour_metrics s = ∅ ∧ day_metrics s = ∅ ∧
  alert_thresholds s = default_thresholds.

(** Every stored alert sits under its own id and is unresolved. *)
Definition alerts_coherent (s : Service) : Prop :=
  ∀ aid a, alerts s !! aid = Some a →
    alert_id a = aid ∧ alert_resolved a = false.

(** Every stored profile sits under its own execution id, has an entry in
    [active_executions], and has a duration exactly when it has an end
    time, the duration being the elapsed time in milliseconds. *)
Definition profiles_coherent (s : Service) : Prop :=
  ∀ eid p, performance_profiles s !! eid = Some p →
    execution_id p = eid ∧ is_Some (active_executions s !! eid) ∧
    duration_ms p
    = (λ e, ((e - start_time p) * (1000 # 1))%Q) <$> end_time p.


(** [sm] carries the count, minimum, maximum and latest of [values]. *)
Definition is_summary (values : list Q) (sm : Summary) : Prop :=
  sm_count sm = length values ∧
  sm_min sm ∈ values ∧ (∀ v, v ∈ values → (sm_min sm <= v)%Q) ∧
  sm_max sm ∈ values ∧ (∀ v, v ∈ values → (v <= sm_max sm)%Q) ∧
  last values = Some (sm_latest sm).

(** A stored window point is well formed: it aggregates at least one
    sample, its bucket starts on a minute, and its minimum is not above its
    maximum. *)
Definition point_well_formed (wp : WindowPoint) : Prop :=
  (1 ≤ wp_count wp)%nat ∧ (wp_timestamp wp `mod` 60 = 0)%Z ∧
  (wp_min wp <= wp_max wp)%Q.

Definition windows_well_formed (s : Service) : Prop :=
  ∀ name w wp, minute_metrics s !! name = Some w → wp ∈ w →
               point_well_formed wp.

(** The texts of the recommendations. *)
Definition rec_duration : string :=
  "Consider optimizing execution flow - duration exceeds 3 seconds".
Definition rec_memory : string :=
  "High memory usage detected - consider memory optimization".
Definition rec_slow_functions (names : list string) : string :=
  "Optimize slow functions: " +:+ String.concat ", " names.
Definition rec_batching : string :=
  "High number of function calls - consider batching or caching".

(** The function calls of a profile that took more than 1000 ms. *)
Definition slow_calls (p : PerformanceProfile) : list FunctionCall :=
  filter (λ fc, Qgtb (fc_duration_ms fc) (1000 # 1) = true) (function_calls p).

(** The resource fields of a profile are the zeros of its creation. *)
Definition resources_unmeasured (s : Service) : Prop :=
  ∀ eid p, performance_profiles s !! eid = Some p →
    cpu_usage p = 0%Q ∧ memory_usage_mb p = 0%Q ∧
    network_io_kb p = 0%Q ∧ disk_io_kb p = 0%Q.

(** The clock readings of a history never go back, starting from [t]. *)
Fixpoint clock_nondecreasing (t : Q) (calls : list (Op * Q)) : Prop :=
  match calls with
  | [] => True
  | call :: rest => (t <= call.2)%Q ∧ clock_nondecreasing call.2 rest
  end.

(** The metrics of [ms] are in the order of their timestamps, none of
    which is later than [t]. *)
Definition ordered_until (t : Q) (ms : list Metric) : Prop :=
  (∀ i j mi mj, (i ≤ j)%nat → ms !! i = Some mi → ms !! j = Some mj →
                (metric_timestamp mi <= metric_timestamp mj)%Q) ∧
  (∀ m, m ∈ ms → (metric_timestamp m <= t)%Q).
(** * Properties *)

(** ** Bounded deques *)

Section deque_facts.
Context {A : Type}.
Variable maxlen : N.

Lemma deque_append_length (x : A) (d : list A) :
  (N.of_nat (length d) ≤ maxlen)%N →
  (N.of_nat (length (deque_append maxlen x d)) ≤ maxlen)%N.
Proof.
  intros Hd. unfold deque_append.
  destruct (N.ltb_spec maxlen (N.of_nat (length (d ++ [x])))) as [Hlt|Hge];
    [|exact Hge].
  rewrite length_drop, length_app. simpl. lia.
Qed.

(** Appending to the last [maxlen] items of a history gives the last
    [maxlen] items of the extended history. *)
Lemma deque_append_history (x : A) (h : list A) :
  deque_append maxlen x (drop (length h - N.to_nat maxlen) h)
  = drop (length (h ++ [x]) - N.to_nat maxlen) (h ++ [x]).
Proof.
  unfold deque_append. rewrite !length_app, length_drop. simpl.
  destruct (N.ltb_spec maxlen
              (N.of_nat (length h - (length h - N.to_nat maxlen) + 1)))
    as [Hlt|Hge].
  - rewrite <- (drop_app_le h [x] (length h - N.to_nat maxlen)) by lia.
    rewrite drop_drop.
    destruct (decide (N.to_nat maxlen = 0%nat)) as [H0|H0].
    + rewrite !drop_ge by (rewrite ?length_app; simpl; lia). done.
    + rewrite drop_app_le by lia. rewrite drop_app_le by lia.
      f_equal. f_equal. lia.
  - replace (length h - N.to_nat maxlen)%nat with 0%nat by lia.
    replace (length h + 1 - N.to_nat maxlen)%nat with 0%nat by lia.
    done.
Qed.

Lemma deque_append_full (x : A) (d : list A) :
  deque_append maxlen x d
  = if (N.of_nat (length d) <? maxlen)%N then d ++ [x]
    else drop 1 (d ++ [x]).
Proof.
  unfold deque_append. rewrite length_app. simpl.
  destruct (N.ltb_spec maxlen (N.of_nat (length d + 1)));
    destruct (N.ltb_spec (N.of_nat (length d)) maxlen); try done; lia.
Qed.
End deque_facts.

(** ** The metrics ring buffer *)

Lemma record_metric_buffer name value tags mtype now s :
  metrics_buffer (record_metric name value tags mtype now s)
  = deque_append METRICS_MAXLEN
      {| metric_name := name; metric_value := value; metric_timestamp := now;
         metric_tags := tags; metric_type := mtype |} (metrics_buffer s).
Proof. reflexivity. Qed.

Lemma record_all_snoc calls c s :
  record_all (calls ++ [c]) s = record_call (record_all calls s) c.
Proof. unfold record_all. by rewrite foldl_app. Qed.

Lemma record_all_buffer calls :
  metrics_buffer (record_all calls new_service)
  = drop (length calls - N.to_nat METRICS_MAXLEN) (metric_of_call <$> calls).
Proof.
  induction calls as [|c calls IH] using rev_ind; [done|].
  rewrite record_all_snoc. unfold record_call.
  rewrite record_metric_buffer, IH, fmap_app. simpl.
  rewrite <- (length_fmap metric_of_call calls) at 1.
  rewrite deque_append_history.
  by rewrite !length_app, length_fmap.
Qed.

(** C2: after any sequence of [record_metric] calls on a fresh service the
    ring buffer holds at most 10000 metrics, namely the 10000 most recently
    recorded ones (all of them while fewer were recorded) in insertion
    order; and one more call on any state appends on the right, dropping
    the oldest entry exactly when the buffer was already full. *)
Theorem metrics_buffer_fifo_bounded :
  (∀ calls : list MetricCall,
     let s := record_all calls new_service in
     (N.of_nat (length (metrics_buffer s)) ≤ 10000)%N ∧
     metrics_buffer s
     = drop (length calls - N.to_nat 10000) (metric_of_call <$> calls)) ∧
  (∀ (c : MetricCall) (s : Service),
     metrics_buffer (record_call s c)
     = if (N.of_nat (length (metrics_buffer s)) <? 10000)%N
       then metrics_buffer s ++ [metric_of_call c]
       else drop 1 (metrics_buffer s ++ [metric_of_call c])).
Proof.
  split.
  - intros calls s. subst s. rewrite record_all_buffer. split; [|done].
    rewrite length_drop, length_fmap. unfold METRICS_MAXLEN. lia.
  - intros c s. unfold record_call. rewrite record_metric_buffer.
    apply deque_append_full.
Qed.

(** ** Queries *)

(** C10: [get_system_health], [get_performance_report] and
    [_get_metrics_summary] return the service state they were given: the
    metrics buffer, alert table, profiles, active executions, sliding
    windows and subscriber set are the same before and after the call. *)
Theorem queries_leave_state (now : Q) (eid : string) (s : Service) :
  (get_system_health now s).2 = s ∧
  (get_performance_report eid s).2 = s ∧
  (_get_metrics_summary now s).2 = s.
Proof.
  split; [reflexivity|]. split.
  - unfold get_performance_report.
    by destruct (performance_profiles s !! eid).
  - unfold _get_metrics_summary.
    by destruct (recent_within (60 # 1) now (metrics_buffer s)).
Qed.

(** ** Alert creation and the static thresholds *)

Lemma broadcast_alerts send_ok s : alerts (broadcast send_ok s) = alerts s.
Proof. unfold broadcast. by case_decide. Qed.

Lemma broadcast_buffer send_ok s :
  metrics_buffer (broadcast send_ok s) = metrics_buffer s.
Proof. unfold broadcast. by case_decide. Qed.

Lemma broadcast_minute send_ok s :
  minute_metrics (broadcast send_ok s) = minute_metrics s.
Proof. unfold broadcast. by case_decide. Qed.

Lemma create_alert_creates_one level title message metadata send_ok now s :
  creates_one level s
    (_create_alert level title message metadata send_ok now s).
Proof.
  unfold creates_one, _create_alert, _broadcast_alert. eexists. simpl.
  split; [reflexivity|]. rewrite broadcast_alerts. done.
Qed.

Lemma Qgeb_true a b : Qgeb a b = true ↔ (b <= a)%Q.
Proof. unfold Qgeb. apply Qle_bool_iff. Qed.

Lemma Qgeb_false a b : Qgeb a b = false ↔ (a < b)%Q.
Proof.
  unfold Qgeb. rewrite <- not_true_iff_false, Qle_bool_iff.
  split; [apply Qnot_le_lt | apply Qlt_not_le].
Qed.

Lemma Qgtb_true a b : Qgtb a b = true ↔ (b < a)%Q.
Proof.
  unfold Qgtb. rewrite negb_true_iff. apply (Qgeb_false b a).
Qed.

Lemma Qltb_true a b : Qltb a b = true ↔ (a < b)%Q.
Proof. apply (Qgtb_true b a). Qed.

(** The pairs registered by [__init__] have [warning < critical]. *)
Lemma default_thresholds_ordered (name : string) (th : Thresholds) :
  alert_thresholds new_service !! name = Some th →
  (th_warning th < th_critical th)%Q.
Proof.
  simpl. unfold default_thresholds. intros Hl.
  repeat (apply lookup_insert_Some in Hl as [[_ <-]|[_ Hl]];
          [unfold Qlt; simpl; lia|]).
  by rewrite lookup_empty in Hl.
Qed.

(** The detached check spawned by [record_metric] on an idle event loop is
    the threshold check of the metric just recorded. *)
Lemma record_then_check name value tags mtype now send_ok now' s :
  pending_tasks s = [] →
  run_task send_ok now' (record_metric name value tags mtype now s)
  = _check_metric_thresholds
      {| metric_name := name; metric_value := value; metric_timestamp := now;
         metric_tags := tags; metric_type := mtype |} send_ok now'
      (set_pending_tasks []
         (record_metric name value tags mtype now s)).
Proof.
  intros Hidle. unfold run_task, record_metric. simpl. by rewrite Hidle.
Qed.

(** C1: for a metric whose name has a registered pair with
    [warning <= critical], the threshold check creates exactly one CRITICAL
    alert when [value >= critical], exactly one WARNING alert (and no
    CRITICAL one) when [warning <= value < critical], and nothing when
    [value < warning]; for a name without registered thresholds it creates
    nothing and returns the state unchanged. *)
Theorem threshold_check_levels (m : Metric) (send_ok : nat → bool) (now : Q)
    (s : Service) :
  let r := _check_metric_thresholds m send_ok now s in
  (∀ th : Thresholds,
     alert_thresholds s !! metric_name m = Some th →
     (th_warning th <= th_critical th)%Q →
     ((th_critical th <= metric_value m)%Q → creates_one CRITICAL s r) ∧
     ((th_warning th <= metric_value m)%Q →
      (metric_value m < th_critical th)%Q →
      creates_one WARNING s r ∧ ∀ a, a ∈ r.2 → alert_level a ≠ CRITICAL) ∧
     ((metric_value m < th_warning th)%Q → r = (s, []))) ∧
  (alert_thresholds s !! metric_name m = None → r = (s, [])).
Proof.
  intros r. subst r. unfold _check_metric_thresholds. split.
  - intros th -> Hwf. split; [|split].
    + intros Hc. apply Qgeb_true in Hc. rewrite Hc.
      apply create_alert_creates_one.
    + intros Hw Hc. apply Qgeb_true in Hw. apply Qgeb_false in Hc.
      rewrite Hc, Hw. split; [apply create_alert_creates_one|].
      intros a Ha. simpl in Ha. apply list_elem_of_singleton in Ha.
      by subst a.
    + intros Hw.
      assert (metric_value m < th_critical th)%Q as Hc
        by (eapply Qlt_le_trans; eassumption).
      apply Qgeb_false in Hw. apply Qgeb_false in Hc. by rewrite Hc, Hw.
  - by intros ->.
Qed.

Lemma threshold_check_levels_witness :
  creates_one CRITICAL new_service
    (_check_metric_thresholds (sample "response_time_ms" (6000 # 1) 1)
       all_delivered 1 new_service) ∧
  creates_one WARNING new_service
    (_check_metric_thresholds (sample "response_time_ms" (2000 # 1) 1)
       all_delivered 1 new_service) ∧
  _check_metric_thresholds (sample "response_time_ms" (1999 # 1) 1)
    all_delivered 1 new_service = (new_service, []) ∧
  _check_metric_thresholds (sample "queue_depth" (6000 # 1) 1)
    all_delivered 1 new_service = (new_service, []).
Proof.
  pose (th := {| th_warning := 2000 # 1; th_critical := 5000 # 1 |}).
  assert (∀ v, alert_thresholds new_service
                 !! metric_name (sample "response_time_ms" v 1) = Some th)
    as Hreg by (intros v; vm_compute; reflexivity).
  assert (th_warning th <= th_critical th)%Q as Hwf
    by (unfold Qle; simpl; lia).
  split; [|split; [|split]].
  - apply (threshold_check_levels (sample "response_time_ms" (6000 # 1) 1)
             all_delivered 1 new_service), proj1 in Hreg; [|exact Hwf].
    apply Hreg. unfold Qle; simpl; lia.
  - apply (threshold_check_levels (sample "response_time_ms" (2000 # 1) 1)
             all_delivered 1 new_service), proj2, proj1 in Hreg; [|exact Hwf].
    apply Hreg; [unfold Qle | unfold Qlt]; simpl; lia.
  - apply (threshold_check_levels (sample "response_time_ms" (1999 # 1) 1)
             all_delivered 1 new_service), proj2, proj2 in Hreg; [|exact Hwf].
    apply Hreg. unfold Qlt; simpl; lia.
  - apply (threshold_check_levels (sample "queue_depth" (6000 # 1) 1)
             all_delivered 1 new_service).
    vm_compute; reflexivity.
Defined.

(** The scenario of the specification: [record_metric("response_time_ms",
    6000, TIMER)] followed by its detached check creates exactly one
    alert, a CRITICAL one about [response_time_ms]. *)
Example response_time_scenario :
  (run_task all_delivered 1
     (record_metric "response_time_ms" (6000 # 1) ∅ TIMER 1 new_service)).2
  = [{| alert_id := "alert-1000"; alert_level := CRITICAL;
        alert_title := "Critical response_time_ms";
        alert_message := MsgCriticallyHigh "response_time_ms" (6000 # 1);
        alert_timestamp := 1; alert_resolved := false;
        alert_metadata :=
          MetaMetric {| metric_name := "response_time_ms";
                        metric_value := 6000 # 1; metric_timestamp := 1;
                        metric_tags := ∅; metric_type := TIMER |} |}].
Proof. vm_compute. reflexivity. Qed.

(** ** System health *)

Lemma length_filter_pos {A} (P : A → Prop) `{∀ x, Decision (P x)}
    (l : list A) :
  (0 < length (filter P l))%nat ↔ ∃ x, x ∈ l ∧ P x.
Proof.
  split.
  - intros Hlen. destruct (filter P l) as [|x l'] eqn:E; [simpl in Hlen; lia|].
    exists x. apply and_comm, (list_elem_of_filter P). rewrite E. left.
  - intros (x & Hx & HP).
    assert (x ∈ filter P l) as Hin by (apply list_elem_of_filter; done).
    destruct (filter P l); [by apply elem_of_nil in Hin | simpl; lia].
Qed.

Lemma unresolved_critical_true a :
  unresolved_critical a = true ↔
  alert_level a = CRITICAL ∧ alert_resolved a = false.
Proof.
  unfold unresolved_critical. rewrite andb_true_iff, negb_true_iff.
  destruct (alert_level a); simpl; intuition congruence.
Qed.

Lemma critical_alerts_pos (al : gmap string Alert) :
  (0 < length (filter (λ a, unresolved_critical a = true)
                      (map_to_list al).*2))%nat ↔
  ∃ (aid : string) (a : Alert),
    al !! aid = Some a ∧ alert_level a = CRITICAL ∧ alert_resolved a = false.
Proof.
  rewrite length_filter_pos. split.
  - intros (a & Hin & Hp). apply list_elem_of_fmap in Hin as ([aid a'] & -> & Hin).
    apply elem_of_map_to_list in Hin. apply unresolved_critical_true in Hp.
    exists aid, a'. tauto.
  - intros (aid & a & Hl & Hlev & Hres). exists a. split.
    + apply list_elem_of_fmap. exists (aid, a). split; [done|].
      by apply elem_of_map_to_list.
    + by apply unresolved_critical_true.
Qed.

(** C3 as stated fails: an unresolved CRITICAL alert created more than an
    hour ago still makes the health status critical. *)
Lemma health_critical_stale_alert :
  ¬ health_critical_iff_recent (4000 # 1) stale_alert_service.
Proof.
  intros [Hyoung _].
  destruct Hyoung as (aid & a & Hl & _ & _ & Hage); [vm_compute; reflexivity|].
  assert (alert_timestamp a = 0%Q) as Hts.
  { change (alerts stale_alert_service) with
      (<[make_alert_id 0 :=
           {| alert_id := make_alert_id 0; alert_level := CRITICAL;
              alert_title := "High Error Rate Detected";
              alert_message := MsgHighErrorRate (1 # 2);
              alert_timestamp := 0; alert_resolved := false;
              alert_metadata := MetaErrorRate (1 # 2) 5 |}]>
         (∅ : gmap string Alert)) in Hl.
    apply lookup_insert_Some in Hl as [[_ <-]|[_ Hl]]; [done|].
    by rewrite lookup_empty in Hl. }
  rewrite Hts in Hage. unfold Qlt in Hage. simpl in Hage. lia.
Qed.

(** C3, amended: the health status is critical exactly when the alert
    table holds an unresolved CRITICAL alert, whatever its age. *)
Theorem health_critical_iff_unresolved (now : Q) (s : Service) :
  h_status (get_system_health now s).1 = "critical" ↔
  ∃ (aid : string) (a : Alert),
    alerts s !! aid = Some a ∧ alert_level a = CRITICAL ∧
    alert_resolved a = false.
Proof.
  rewrite <- critical_alerts_pos. unfold get_system_health. simpl.
  destruct (Nat.ltb_spec 0
              (length (filter (λ a, unresolved_critical a = true)
                              (map_to_list (alerts s)).*2))) as [Hpos|Hz].
  - split; [intros _; exact Hpos | done].
  - split; [|lia]. intros Hst.
    repeat match type of Hst with
           | (if ?b then _ else _) = _ => destruct b
           end; discriminate Hst.
Qed.

(** ** Execution profiling *)

Lemma record_metric_profiles name value tags mtype now s :
  performance_profiles (record_metric name value tags mtype now s)
  = performance_profiles s.
Proof. reflexivity. Qed.

(** The profile table after [end_execution_tracking] on a known id. *)
Lemma end_execution_tracking_profile eid status error now s p :
  performance_profiles s !! eid = Some p →
  ∃ p', performance_profiles (end_execution_tracking eid status error now s)
          = <[eid := p']> (performance_profiles s) ∧
        start_time p' = start_time p ∧
        end_time p' = Some now ∧
        duration_ms p' = Some ((now - start_time p) * (1000 # 1))%Q ∧
        function_calls p' = function_calls p.
Proof.
  intros Hl. unfold end_execution_tracking. rewrite Hl. simpl.
  destruct (Qgtb ((now - start_time p) * (1000 # 1)) (5000 # 1));
    destruct (active_executions s !! eid); simpl;
    rewrite ?insert_insert_eq; eexists; (split; [reflexivity|]); done.
Qed.

(** C6 as stated fails: ending an execution a second time overwrites the
    duration set by the first end. *)
Lemma end_twice_changes_duration :
  ¬ end_sets_duration_once "e1" "completed" None (2 # 1) ended_service.
Proof.
  intros [_ Hkeep].
  edestruct Hkeep as (p' & d' & Hl & Hd & Heq);
    [vm_compute; reflexivity | reflexivity |].
  vm_compute in Hl. injection Hl as <-. simpl in Hd. injection Hd as <-.
  unfold Qeq in Heq. simpl in Heq. lia.
Qed.

(** C6, amended: [end_execution_tracking] on an id without profile returns
    the state unchanged; on a known id it sets the profile's end time to
    the clock and its duration to [(now - start_time) * 1000], whether or
    not a duration was set before, keeping the start time and the recorded
    function calls. *)
Theorem end_execution_tracking_sets_duration (eid status : string)
    (error : option string) (now : Q) (s : Service) :
  (performance_profiles s !! eid = None →
   end_execution_tracking eid status error now s = s) ∧
  (∀ p : PerformanceProfile,
     performance_profiles s !! eid = Some p →
     ∃ p' : PerformanceProfile,
       performance_profiles (end_execution_tracking eid status error now s)
         !! eid = Some p' ∧
       duration_ms p' = Some ((now - start_time p) * (1000 # 1))%Q ∧
       end_time p' = Some now ∧
       start_time p' = start_time p ∧
       function_calls p' = function_calls p).
Proof.
  split.
  - intros Hl. unfold end_execution_tracking. by rewrite Hl.
  - intros p Hl.
    destruct (end_execution_tracking_profile eid status error now s p Hl)
      as (p' & -> & Hst & Hen & Hdur & Hfc).
    exists p'. by rewrite lookup_insert_eq.
Qed.

Lemma end_execution_tracking_sets_duration_witness :
  end_execution_tracking "e9" "completed" None (2 # 1) ended_service
  = ended_service ∧
  ∃ p' : PerformanceProfile,
    performance_profiles
      (end_execution_tracking "e1" "completed" None (2 # 1) ended_service)
      !! "e1" = Some p' ∧
    duration_ms p' = Some (((2 # 1) - 0) * (1000 # 1))%Q.
Proof.
  split.
  - apply (end_execution_tracking_sets_duration "e9" "completed" None (2 # 1)
             ended_service).
    vm_compute; reflexivity.
  - destruct (end_execution_tracking_sets_duration "e1" "completed" None
                (2 # 1) ended_service) as [_ Hknown].
    destruct (Hknown
                {| execution_id := "e1"; start_time := 0;
                   end_time := Some 1%Q;
                   duration_ms := Some ((1 - 0) * (1000 # 1))%Q;
                   cpu_usage := 0; memory_usage_mb := 0; network_io_kb := 0;
                   disk_io_kb := 0; function_calls := []; bottlenecks := [] |})
      as (p' & Hl & Hdur & _); [reflexivity|].
    exists p'. split; [exact Hl | exact Hdur].
Defined.

(** C7 as stated fails: a second start with the same id stores a fresh
    profile in place of the existing one. *)
Lemma duplicate_start_replaces_profile :
  ¬ duplicate_start_rejected "e1" ∅ (10 # 1) profiled_service.
Proof.
  intros Hkeep. unfold duplicate_start_rejected in Hkeep.
  edestruct (performance_profiles profiled_service !! "e1") as [p|] eqn:Hl;
    [|vm_compute in Hl; discriminate Hl].
  specialize (Hkeep p eq_refl).
  vm_compute in Hl. injection Hl as <-.
  vm_compute in Hkeep. discriminate Hkeep.
Qed.

(** C7, amended: a call to [start_execution_tracking] with an id that
    already has a profile is accepted: it returns the id and replaces the
    existing profile by a fresh one whose start time is the time of this
    call, with no end time, no duration and no recorded function calls. *)
Theorem duplicate_start_stores_fresh_profile (eid : string)
    (metadata : gmap string string) (now : Q) (s : Service)
    (p : PerformanceProfile) :
  performance_profiles s !! eid = Some p →
  (start_execution_tracking eid metadata now s).1 = eid ∧
  performance_profiles (start_execution_tracking eid metadata now s).2
    !! eid = Some (fresh_profile eid now).
Proof.
  intros _. split; [reflexivity|].
  unfold start_execution_tracking. simpl. apply lookup_insert_eq.
Qed.

Lemma duplicate_start_stores_fresh_profile_witness :
  (start_execution_tracking "e1" ∅ (10 # 1) profiled_service).1 = "e1" ∧
  performance_profiles
    (start_execution_tracking "e1" ∅ (10 # 1) profiled_service).2 !! "e1"
  = Some (fresh_profile "e1" (10 # 1)).
Proof.
  apply (duplicate_start_stores_fresh_profile "e1" ∅ (10 # 1) profiled_service
           {| execution_id := "e1"; start_time := 0; end_time := None;
              duration_ms := None; cpu_usage := 0; memory_usage_mb := 0;
              network_io_kb := 0; disk_io_kb := 0;
              function_calls :=
                [call_entry "agent_manager.execute_agent" (250 # 1) true 1];
              bottlenecks := [] |}).
  reflexivity.
Defined.

(** C8 as stated fails: a function call reported for an execution that has
    already ended is still appended to its profile. *)
Lemma call_recorded_after_end :
  ¬ calls_recorded_only_when_active "e1" "voice_service.synthesize_speech"
      (40 # 1) true (2 # 1) ended_service.
Proof.
  intros (_ & Hended & _).
  edestruct (performance_profiles ended_service !! "e1") as [p|] eqn:Hl;
    [|vm_compute in Hl; discriminate Hl].
  specialize (Hended p eq_refl).
  vm_compute in Hl. injection Hl as <-.
  specialize (Hended ltac:(discriminate)).
  apply (f_equal (λ m, length <$> m !! "e1")) in Hended.
  vm_compute in Hended. discriminate Hended.
Qed.

(** C8, amended: [record_function_call] appends the entry to the profile's
    function-call list whenever a profile with that id exists, whether the
    execution is still active or has already ended, and leaves the other
    profiles as they are; for an id without profile it returns the state
    unchanged. *)
Theorem record_function_call_appends (eid function_name : string) (dur : Q)
    (success : bool) (now : Q) (s : Service) :
  let s' := record_function_call eid function_name dur success now s in
  (∀ p : PerformanceProfile,
     performance_profiles s !! eid = Some p →
     (∃ p' : PerformanceProfile,
        performance_profiles s' !! eid = Some p' ∧
        function_calls p'
        = function_calls p ++ [call_entry function_name dur success now] ∧
        end_time p' = end_time p ∧ duration_ms p' = duration_ms p) ∧
     (∀ other : string,
        other ≠ eid →
        performance_profiles s' !! other = performance_profiles s !! other)) ∧
  (performance_profiles s !! eid = None → s' = s).
Proof.
  intros s'. subst s'. unfold record_function_call. split.
  - intros p ->. rewrite record_metric_profiles. simpl. split.
    + eexists. rewrite lookup_insert_eq. done.
    + intros other Hne. by rewrite lookup_insert_ne.
  - by intros ->.
Qed.

Lemma record_function_call_appends_witness :
  (∃ p' : PerformanceProfile,
     performance_profiles
       (record_function_call "e1" "voice_service.synthesize_speech" (40 # 1)
          true (2 # 1) ended_service) !! "e1" = Some p' ∧
     function_calls p'
     = [call_entry "voice_service.synthesize_speech" (40 # 1) true (2 # 1)] ∧
     end_time p' = Some 1%Q) ∧
  performance_profiles
    (record_function_call "e1" "voice_service.synthesize_speech" (40 # 1)
       true (2 # 1) ended_service) !! "e2"
  = performance_profiles ended_service !! "e2" ∧
  record_function_call "e2" "voice_service.synthesize_speech" (40 # 1) true
    (2 # 1) ended_service = ended_service.
Proof.
  pose proof (record_function_call_appends "e1"
                "voice_service.synthesize_speech" (40 # 1) true (2 # 1)
                ended_service) as [Hknown _].
  pose proof (record_function_call_appends "e2"
                "voice_service.synthesize_speech" (40 # 1) true (2 # 1)
                ended_service) as [_ Hunknown].
  destruct (Hknown
              {| execution_id := "e1"; start_time := 0;
                 end_time := Some 1%Q;
                 duration_ms := Some ((1 - 0) * (1000 # 1))%Q;
                 cpu_usage := 0; memory_usage_mb := 0; network_io_kb := 0;
                 disk_io_kb := 0; function_calls := []; bottlenecks := [] |})
    as [(p' & Hl & Hfc & Hen & _) Hother]; [reflexivity|].
  split; [|split].
  - exists p'. split; [exact Hl|]. split; [exact Hfc | exact Hen].
  - apply Hother. discriminate.
  - apply Hunknown. vm_compute; reflexivity.
Defined.

(** ** Alert identity *)

(** Two creations get the same id exactly when their clock readings fall
    in the same millisecond. *)
Lemma make_alert_id_eq now now' :
  make_alert_id now = make_alert_id now' ↔
  py_int (now * (1000 # 1)) = py_int (now' * (1000 # 1)).
Proof.
  unfold make_alert_id. split; [|by intros ->].
  intros Heq. simpl in Heq.
  apply (inj (String.append "alert-")) in Heq.
  by apply (inj pretty) in Heq.
Qed.

(** C9 fails on the code: the checks of two different breaches that run
    within one millisecond build two different alerts with the same id,
    and the second replaces the first in the alert table, which ends up
    with a single record. *)
Theorem alert_ids_collide_within_millisecond :
  let r1 := run_task all_delivered (10003 # 10000) two_breaches_service in
  let r2 := run_task all_delivered (10004 # 10000) r1.1 in
  ∃ a1 a2 : Alert,
    r1.2 = [a1] ∧ r2.2 = [a2] ∧
    alert_title a1 = "Critical response_time_ms" ∧
    alert_title a2 = "Critical cpu_usage_percent" ∧
    alert_id a1 = "alert-1000" ∧ alert_id a2 = "alert-1000" ∧
    alerts r1.1 = {[ "alert-1000" := a1 ]} ∧
    alerts r2.1 = {[ "alert-1000" := a2 ]}.
Proof.
  intros r1 r2. subst r1 r2. eexists. eexists.
  split; [vm_compute; reflexivity|].
  split; [vm_compute; reflexivity|].
  repeat split; vm_compute; reflexivity.
Qed.

(** ** Grouping by metric name *)

Lemma group_by_name_snoc {A} (proj : Metric → A) ms m :
  group_by_name proj (ms ++ [m])
  = <[metric_name m :=
        default [] (group_by_name proj ms !! metric_name m) ++ [proj m]]>
      (group_by_name proj ms).
Proof. unfold group_by_name. by rewrite foldl_app. Qed.

Lemma group_by_name_lookup {A} (proj : Metric → A) ms k :
  group_by_name proj ms !! k
  = match filter (λ m, metric_name m = k) ms with
    | [] => None
    | l => Some (proj <$> l)
    end.
Proof.
  induction ms as [|m ms IH] using rev_ind; [done|].
  rewrite group_by_name_snoc, filter_app.
  destruct (decide (metric_name m = k)) as [Hk|Hk].
  - rewrite Hk, lookup_insert_eq, IH.
    rewrite (filter_cons_True _ m []) by done. rewrite filter_nil.
    destruct (filter (λ m0, metric_name m0 = k) ms) as [|x l]; [done|].
    simpl. by rewrite fmap_app.
  - rewrite lookup_insert_ne by done.
    rewrite (filter_cons_False _ m []) by done. rewrite filter_nil.
    by rewrite app_nil_r.
Qed.

Lemma group_by_name_default {A} (proj : Metric → A) ms k :
  default [] (group_by_name proj ms !! k)
  = proj <$> filter (λ m, metric_name m = k) ms.
Proof.
  rewrite group_by_name_lookup.
  by destruct (filter (λ m, metric_name m = k) ms).
Qed.

(** ** The pattern-based alert of the fast heartbeat *)

Lemma update_aggregations_alerts now s :
  alerts (_update_aggregations now s) = alerts s.
Proof. reflexivity. Qed.

Lemma monitoring_tick_created send_ok now s :
  (monitoring_tick send_ok now s).2
  = (_process_alerts (recent_within (60 # 1) now (metrics_buffer s))
       send_ok now s).2.
Proof.
  unfold monitoring_tick.
  by destruct (_process_alerts _ send_ok now s).
Qed.

Lemma monitoring_tick_alerts send_ok now s :
  alerts (monitoring_tick send_ok now s).1
  = alerts (_process_alerts (recent_within (60 # 1) now (metrics_buffer s))
              send_ok now s).1.
Proof.
  unfold monitoring_tick, _broadcast_updates.
  destruct (_process_alerts _ send_ok now s). simpl.
  by rewrite broadcast_alerts.
Qed.

(** [_process_alerts] in terms of the recent samples of "error_rate". *)
Lemma process_alerts_unfold recent_metrics send_ok now s :
  _process_alerts recent_metrics send_ok now s
  = let recent := error_rate_samples recent_metrics in
    if (5 <=? length recent)%nat then
      if Qgtb (mean_of_last_5 recent) (1 # 10) then
        _create_alert CRITICAL "High Error Rate Detected"
          (MsgHighErrorRate (mean_of_last_5 recent))
          (MetaErrorRate (mean_of_last_5 recent)
             (length (metric_value <$> py_last_n 5 recent)))
          send_ok now s
      else (s, [])
    else (s, []).
Proof.
  unfold _process_alerts. rewrite group_by_name_default, list_fmap_id.
  reflexivity.
Qed.

Lemma creates_one_tick level send_ok now s :
  creates_one level s
    (_process_alerts (recent_within (60 # 1) now (metrics_buffer s))
       send_ok now s) →
  creates_one level s (monitoring_tick send_ok now s).
Proof.
  intros (a & Hc & Hlev & Hres & Hal). exists a.
  by rewrite monitoring_tick_created, monitoring_tick_alerts.
Qed.

(** The pattern path with the interpreter's arithmetic. *)

Lemma create_alert_reads_alerts level title message metadata send_ok reads s :
  alerts (_create_alert_reads level title message metadata send_ok reads s).1
  = <["alert-" +:+ pretty (read_ms reads) :=
        {| alert_id := "alert-" +:+ pretty (read_ms reads);
           alert_level := level; alert_title := title;
           alert_message := message;
           alert_timestamp := read_timestamp reads;
           alert_resolved := false; alert_metadata := metadata |}]>
      (alerts s).
Proof.
  unfold _create_alert_reads, _broadcast_alert. simpl.
  by rewrite broadcast_alerts.
Qed.

Lemma create_alert_reads_creates_one level title message metadata send_ok
    reads s :
  creates_one level s
    (_create_alert_reads level title message metadata send_ok reads s).
Proof.
  unfold creates_one. eexists.
  split; [reflexivity|]. split; [reflexivity|]. split; [reflexivity|].
  apply create_alert_reads_alerts.
Qed.

(** [_process_alerts_with] in terms of the recent samples of "error_rate". *)
Lemma process_alerts_with_unfold mean reads recent_metrics send_ok s :
  _process_alerts_with mean reads recent_metrics send_ok s
  = let recent := error_rate_samples recent_metrics in
    let avg := mean (metric_value <$> py_last_n 5 recent) in
    if (5 <=? length recent)%nat then
      if Qgtb avg DOUBLE_0_1 then
        _create_alert_reads CRITICAL "High Error Rate Detected"
          (MsgHighErrorRate avg)
          (MetaErrorRate avg (length (metric_value <$> py_last_n 5 recent)))
          send_ok reads s
      else (s, [])
    else (s, []).
Proof.
  unfold _process_alerts_with. rewrite group_by_name_default, list_fmap_id.
  reflexivity.
Qed.

Lemma monitoring_tick_with_created mean reads send_ok now s :
  (monitoring_tick_with mean reads send_ok now s).2
  = (_process_alerts_with mean reads
       (recent_within (60 # 1) now (metrics_buffer s)) send_ok s).2.
Proof.
  unfold monitoring_tick_with.
  by destruct (_process_alerts_with mean reads _ send_ok s).
Qed.

Lemma monitoring_tick_with_alerts mean reads send_ok now s :
  alerts (monitoring_tick_with mean reads send_ok now s).1
  = alerts (_process_alerts_with mean reads
              (recent_within (60 # 1) now (metrics_buffer s)) send_ok s).1.
Proof.
  unfold monitoring_tick_with, _broadcast_updates.
  destruct (_process_alerts_with mean reads _ send_ok s). simpl.
  by rewrite broadcast_alerts.
Qed.

(** The float mean at the samples used below, and at two inputs where it
    differs from the exact mean: five samples of the double 0.1 have the
    double 0.1 as mean, which does not exceed it, and the doubles 0.05,
    0.1, 0.15, 0.15, 0.05 have the next double above 0.1 as mean. *)
Example float_mean_examples :
  float_mean [1 # 2; 1 # 2; 1 # 2; 1 # 2; 1 # 2]%Q = (1 # 2)%Q ∧
  float_mean [DOUBLE_0_1; DOUBLE_0_1; DOUBLE_0_1; DOUBLE_0_1; DOUBLE_0_1]
  = DOUBLE_0_1 ∧
  float_mean [3602879701896397 # 72057594037927936; DOUBLE_0_1;
              5404319552844595 # 36028797018963968;
              5404319552844595 # 36028797018963968;
              3602879701896397 # 72057594037927936]%Q
  = (7205759403792795 # 72057594037927936)%Q.
Proof. vm_compute. done. Qed.

(** C5 as stated fails: five "error_rate" samples of mean 0.5 that are
    older than 60 time units raise no pattern alert on the tick. *)
Lemma old_error_samples_raise_nothing :
  ¬ pattern_alert_on_latest_mean float_mean
      {| read_ms := 100000; read_timestamp := 100 # 1 |}
      all_delivered (100 # 1) error_burst_service.
Proof.
  intros [Hraise _].
  destruct Hraise as (a & Hone & _); [vm_compute; reflexivity|].
  vm_compute in Hone. discriminate Hone.
Qed.

(** C5, amended: on a tick, when the buffer holds at least five
    "error_rate" samples recorded less than 60 time units ago and the mean
    of the five most recent of them, as the interpreter computes
    [sum(values) / len(values)] in floating point, is greater than the
    float 0.1, exactly one CRITICAL alert, titled "High Error Rate
    Detected", is created; with fewer such samples, or a computed mean that
    is not greater than the float 0.1, the tick creates no alert and
    leaves the alert table as it is.  The alerts created by the tick do
    not depend on the registered thresholds. *)
Theorem pattern_alert_on_recent_samples (mean : list Q → Q)
    (reads : ClockReads) (send_ok : nat → bool) (now : Q) (s : Service) :
  let r := monitoring_tick_with mean reads send_ok now s in
  let recent :=
    error_rate_samples (recent_within (60 # 1) now (metrics_buffer s)) in
  let avg := mean (metric_value <$> py_last_n 5 recent) in
  ((5 ≤ length recent)%nat → (DOUBLE_0_1 < avg)%Q →
   creates_one CRITICAL s r ∧
   ∀ a, a ∈ r.2 → alert_title a = "High Error Rate Detected") ∧
  ((length recent < 5)%nat ∨ (avg <= DOUBLE_0_1)%Q →
   r.2 = [] ∧ alerts r.1 = alerts s) ∧
  (∀ t : gmap string Thresholds,
     (monitoring_tick_with mean reads send_ok now
        (set_alert_thresholds t s)).2 = r.2).
Proof.
  intros r recent avg. subst r.
  split; [|split].
  - intros Hlen Hmean.
    assert (_process_alerts_with mean reads
              (recent_within (60 # 1) now (metrics_buffer s)) send_ok s
            = _create_alert_reads CRITICAL "High Error Rate Detected"
                (MsgHighErrorRate avg)
                (MetaErrorRate avg
                   (length (metric_value <$> py_last_n 5 recent)))
                send_ok reads s) as Hpa.
    { rewrite process_alerts_with_unfold. cbv zeta. fold recent. fold avg.
      apply Nat.leb_le in Hlen. apply Qgtb_true in Hmean.
      by rewrite Hlen, Hmean. }
    split.
    + destruct (create_alert_reads_creates_one CRITICAL
                  "High Error Rate Detected" (MsgHighErrorRate avg)
                  (MetaErrorRate avg
                     (length (metric_value <$> py_last_n 5 recent)))
                  send_ok reads s) as (a & Hc & Hlev & Hres & Hal).
      exists a.
      by rewrite monitoring_tick_with_created, monitoring_tick_with_alerts,
        Hpa.
    + intros a. rewrite monitoring_tick_with_created, Hpa. simpl.
      intros Ha. apply list_elem_of_singleton in Ha. by subst a.
  - intros Hno.
    assert (_process_alerts_with mean reads
              (recent_within (60 # 1) now (metrics_buffer s)) send_ok s
            = (s, [])) as Hpa.
    { rewrite process_alerts_with_unfold. cbv zeta. fold recent. fold avg.
      destruct (Nat.leb_spec 5 (length recent)) as [Hge|Hlt]; [|done].
      destruct Hno as [Hlt|Hle]; [lia|].
      destruct (Qgtb avg DOUBLE_0_1) eqn:Hgt; [|done].
      apply Qgtb_true in Hgt. by apply Qlt_not_le in Hgt. }
    by rewrite monitoring_tick_with_created, monitoring_tick_with_alerts, Hpa.
  - intros t.
    rewrite !monitoring_tick_with_created, !process_alerts_with_unfold.
    cbv zeta.
    change (metrics_buffer (set_alert_thresholds t s)) with (metrics_buffer s).
    fold recent. fold avg.
    destruct (5 <=? length recent)%nat; [|done].
    by destruct (Qgtb avg DOUBLE_0_1).
Qed.

Lemma pattern_alert_on_recent_samples_witness :
  creates_one CRITICAL error_burst_service
    (monitoring_tick_with float_mean
       {| read_ms := 10000; read_timestamp := 10 # 1 |}
       all_delivered (10 # 1) error_burst_service) ∧
  (monitoring_tick_with float_mean
     {| read_ms := 100000; read_timestamp := 100 # 1 |}
     all_delivered (100 # 1) error_burst_service).2 = [].
Proof.
  pose proof (pattern_alert_on_recent_samples float_mean
                {| read_ms := 10000; read_timestamp := 10 # 1 |}
                all_delivered (10 # 1) error_burst_service) as Hrecent.
  pose proof (pattern_alert_on_recent_samples float_mean
                {| read_ms := 100000; read_timestamp := 100 # 1 |}
                all_delivered (100 # 1) error_burst_service) as Hold.
  cbv zeta in Hrecent, Hold.
  destruct Hrecent as (Hraise & _ & _). destruct Hold as (_ & Hquiet & _).
  split.
  - apply Hraise; vm_compute; [lia | reflexivity].
  - apply Hquiet. left. vm_compute. lia.
Defined.

(** On the tick the float mean decides: five recent samples of the double
    0.1 raise nothing, and five recent samples 0.05, 0.1, 0.15, 0.15, 0.05,
    whose exact mean is one tenth, raise the alert. *)
Example pattern_alert_at_the_limit :
  (monitoring_tick_with float_mean
     {| read_ms := 10000; read_timestamp := 10 # 1 |} all_delivered (10 # 1)
     (record_all
        ((λ v, {| mc_name := "error_rate"; mc_value := v; mc_tags := ∅;
                  mc_type := GAUGE; mc_now := 0 |}) <$>
           [DOUBLE_0_1; DOUBLE_0_1; DOUBLE_0_1; DOUBLE_0_1; DOUBLE_0_1])
        new_service)).2 = [] ∧
  (alert_level <$>
     (monitoring_tick_with float_mean
        {| read_ms := 10000; read_timestamp := 10 # 1 |} all_delivered
        (10 # 1)
        (record_all
           ((λ v, {| mc_name := "error_rate"; mc_value := v; mc_tags := ∅;
                     mc_type := GAUGE; mc_now := 0 |}) <$>
              [3602879701896397 # 72057594037927936; DOUBLE_0_1;
               5404319552844595 # 36028797018963968;
               5404319552844595 # 36028797018963968;
               3602879701896397 # 72057594037927936]%Q)
           new_service)).2) = [CRITICAL].
Proof. vm_compute. done. Qed.

(** ** Window aggregation *)

Lemma Qltb_false a b : Qltb a b = false ↔ (b <= a)%Q.
Proof. unfold Qltb. rewrite negb_false_iff. apply Qle_bool_iff. Qed.

Lemma Qgtb_false a b : Qgtb a b = false ↔ (a <= b)%Q.
Proof. apply (Qltb_false b a). Qed.

Lemma foldl_min_spec (rest : list Q) (acc : Q) :
  let r := foldl (λ acc x, if Qltb x acc then x else acc) acc rest in
  (r = acc ∨ r ∈ rest) ∧ (r <= acc)%Q ∧ ∀ v, v ∈ rest → (r <= v)%Q.
Proof.
  revert acc. induction rest as [|x rest IH]; intros acc; simpl.
  - split; [by left|]. split; [apply Qle_refl|].
    intros v Hv. by apply elem_of_nil in Hv.
  - destruct (IH (if Qltb x acc then x else acc)) as (Hin & Hle & Hall).
    destruct (Qltb x acc) eqn:Hx.
    + apply Qltb_true, Qlt_le_weak in Hx. split; [|split].
      * destruct Hin as [->|Hin]; right; [left | by right].
      * by eapply Qle_trans.
      * intros v Hv. apply elem_of_cons in Hv as [->|Hv]; [done | by apply Hall].
    + apply Qltb_false in Hx. split; [|split].
      * destruct Hin as [->|Hin]; [by left | right; by right].
      * done.
      * intros v Hv. apply elem_of_cons in Hv as [->|Hv]; [|by apply Hall].
        by eapply Qle_trans.
Qed.

Lemma foldl_max_spec (rest : list Q) (acc : Q) :
  let r := foldl (λ acc x, if Qgtb x acc then x else acc) acc rest in
  (r = acc ∨ r ∈ rest) ∧ (acc <= r)%Q ∧ ∀ v, v ∈ rest → (v <= r)%Q.
Proof.
  revert acc. induction rest as [|x rest IH]; intros acc; simpl.
  - split; [by left|]. split; [apply Qle_refl|].
    intros v Hv. by apply elem_of_nil in Hv.
  - destruct (IH (if Qgtb x acc then x else acc)) as (Hin & Hle & Hall).
    destruct (Qgtb x acc) eqn:Hx.
    + apply Qgtb_true, Qlt_le_weak in Hx. split; [|split].
      * destruct Hin as [->|Hin]; right; [left | by right].
      * by eapply Qle_trans.
      * intros v Hv. apply elem_of_cons in Hv as [->|Hv]; [done | by apply Hall].
    + apply Qgtb_false in Hx. split; [|split].
      * destruct Hin as [->|Hin]; [by left | right; by right].
      * done.
      * intros v Hv. apply elem_of_cons in Hv as [->|Hv]; [|by apply Hall].
        by eapply Qle_trans.
Qed.

Lemma window_point_is_aggregate (bucket : Z) (values : list Q) :
  values ≠ [] → is_aggregate values (window_point bucket values).
Proof.
  destruct values as [|v rest]; [done|]. intros _.
  unfold is_aggregate, window_point. simpl.
  destruct (foldl_min_spec rest v) as (Hmin & Hminle & Hminall).
  destruct (foldl_max_spec rest v) as (Hmax & Hmaxle & Hmaxall).
  split; [done|]. split.
  { unfold py_mean. rewrite Qmult_comm. apply Qmult_div_r.
    unfold Qeq. simpl. lia. }
  split; [destruct Hmin as [->|Hmin]; [left | by right]|].
  split.
  { intros x Hx. apply elem_of_cons in Hx as [->|Hx]; [done | by apply Hminall]. }
  split; [destruct Hmax as [->|Hmax]; [left | by right]|].
  intros x Hx. apply elem_of_cons in Hx as [->|Hx]; [done | by apply Hmaxall].
Qed.

(** What the loop over the grouped values leaves in the window of [k]. *)
Lemma aggregate_fold_lookup (bucket : Z) (w : gmap string (list WindowPoint))
    (g : gmap string (list Q)) (k : string) :
  map_fold
    (λ name values windows,
       match values with
       | [] => windows
       | _ => <[name := deque_append MINUTE_MAXLEN (window_point bucket values)
                          (default [] (windows !! name))]> windows
       end) w g !! k
  = match g !! k with
    | Some (v :: vs) =>
        Some (deque_append MINUTE_MAXLEN (window_point bucket (v :: vs))
                (default [] (w !! k)))
    | _ => w !! k
    end.
Proof.
  apply (map_fold_weak_ind (λ r m,
    r !! k = match m !! k with
             | Some (v :: vs) =>
                 Some (deque_append MINUTE_MAXLEN
                         (window_point bucket (v :: vs)) (default [] (w !! k)))
             | _ => w !! k
             end)).
  - by rewrite lookup_empty.
  - intros i x m r Hi IH.
    destruct (decide (i = k)) as [->|Hne].
    + rewrite Hi in IH. rewrite lookup_insert_eq.
      destruct x as [|v vs]; [done|].
      by rewrite lookup_insert_eq, IH.
    + rewrite (lookup_insert_ne m) by done.
      destruct x as [|v vs]; [done|].
      by rewrite lookup_insert_ne.
Qed.

Lemma create_alert_frame level title message metadata send_ok now s :
  let s' := (_create_alert level title message metadata send_ok now s).1 in
  metrics_buffer s' = metrics_buffer s ∧ minute_metrics s' = minute_metrics s.
Proof.
  unfold _create_alert, _broadcast_alert. simpl.
  by rewrite broadcast_buffer, broadcast_minute.
Qed.

Lemma process_alerts_frame recent_metrics send_ok now s :
  let s' := (_process_alerts recent_metrics send_ok now s).1 in
  metrics_buffer s' = metrics_buffer s ∧ minute_metrics s' = minute_metrics s.
Proof.
  rewrite process_alerts_unfold. cbv zeta.
  destruct (5 <=? _)%nat; [|done].
  destruct (Qgtb _ _); [|done]. apply create_alert_frame.
Qed.

Lemma monitoring_tick_minute send_ok now s :
  minute_metrics (monitoring_tick send_ok now s).1
  = minute_metrics (_update_aggregations now s).
Proof.
  unfold monitoring_tick, _broadcast_updates.
  pose proof (process_alerts_frame
                (recent_within (60 # 1) now (metrics_buffer s)) send_ok now s)
    as Hframe.
  destruct (_process_alerts _ send_ok now s) as [s1 created].
  simpl in Hframe. destruct Hframe as [Hbuf Hmin]. simpl.
  rewrite broadcast_minute. unfold _update_aggregations. simpl.
  by rewrite Hbuf, Hmin.
Qed.


(** The hour and day windows are left as they are by a tick. *)
Lemma monitoring_tick_hour_day send_ok now s :
  hour_metrics (monitoring_tick send_ok now s).1 = hour_metrics s ∧
  day_metrics (monitoring_tick send_ok now s).1 = day_metrics s.
Proof.
  unfold monitoring_tick, _broadcast_updates.
  rewrite process_alerts_unfold. cbv zeta.
  destruct (5 <=? _)%nat; [destruct (Qgtb _ _)|]; simpl;
    unfold broadcast, _create_alert, _broadcast_alert, broadcast;
    repeat case_decide; done.
Qed.



(** ** Scenarios of the specification *)

(** 10001 metrics recorded into the fresh buffer: it holds the 10000 most
    recent ones, in order, and the first one is gone. *)
Example ten_thousand_and_one_metrics :
  metrics_buffer
    (record_all (numbered_call <$> seq 0 (S (N.to_nat 10000))) new_service)
  = metric_of_call <$> (numbered_call <$> seq 1 (N.to_nat 10000)).
Proof.
  rewrite record_all_buffer, length_fmap, length_seq.
  replace (S (N.to_nat 10000) - N.to_nat METRICS_MAXLEN)%nat with 1%nat
    by (unfold METRICS_MAXLEN; lia).
  change (seq 0 (S (N.to_nat 10000))) with (0%nat :: seq 1 (N.to_nat 10000)).
  by rewrite !fmap_cons.
Qed.

(** An execution started at time 0 and ended at time 6 lasts 6000 ms, is
    tagged "slow_execution", and the detached tasks it leaves create one
    alert, a WARNING. *)
Example slow_execution_scenario :
  let s := end_execution_tracking "e1" "completed" None (6 # 1)
             started_service in
  (performance_profiles s !! "e1" ≫= duration_ms) = Some (6000 # 1)%Q ∧
  (bottlenecks <$> performance_profiles s !! "e1") = Some ["slow_execution"] ∧
  length (pending_tasks s) = 4%nat ∧
  (alert_level <$> (run_tasks 4 all_delivered (6 # 1) s).2) = [WARNING] ∧
  (alert_title <$> (run_tasks 4 all_delivered (6 # 1) s).2)
  = ["Slow Execution Detected"].
Proof. vm_compute. done. Qed.

(** * Further properties of the service *)

(** ** Housekeeping *)

Lemma delete_all_lookup {V} (keys : list string) (d : gmap string V) k :
  delete_all keys d !! k = if decide (k ∈ keys) then None else d !! k.
Proof.
  unfold delete_all. revert d.
  induction keys as [|x keys IH]; intros d; simpl; [done|].
  rewrite IH. destruct (decide (k ∈ keys)) as [Hin|Hnin].
  - rewrite decide_True by (by right). done.
  - destruct (decide (k = x)) as [->|Hne].
    + rewrite decide_True by left. apply lookup_delete_eq.
    + rewrite decide_False by (intros Hin; apply elem_of_cons in Hin; tauto).
      by apply lookup_delete_ne.
Qed.

(** The keys selected by a sweep are those of the entries that satisfy the
    selection test. *)
Lemma old_keys_spec {V} (P : V → bool) (d : gmap string V) k :
  k ∈ (filter (λ kv : string * V, P kv.2 = true) (map_to_list d)).*1 ↔
  ∃ v, d !! k = Some v ∧ P v = true.
Proof.
  rewrite list_elem_of_fmap. split.
  - intros ([k' v] & -> & Hin). apply list_elem_of_filter in Hin as [HP Hin].
    apply elem_of_map_to_list in Hin. by exists v.
  - intros (v & Hl & HP). exists (k, v). split; [done|].
    apply list_elem_of_filter. split; [done|]. by apply elem_of_map_to_list.
Qed.

Lemma sweep_lookup {V} (P : V → bool) (d : gmap string V) k :
  delete_all (filter (λ kv : string * V, P kv.2 = true) (map_to_list d)).*1 d
    !! k
  = match d !! k with
    | Some v => if P v then None else Some v
    | None => None
    end.
Proof.
  rewrite delete_all_lookup.
  destruct (decide (k ∈ _)) as [Hin|Hnin].
  - apply old_keys_spec in Hin as (v & -> & ->). done.
  - destruct (d !! k) as [v|] eqn:Hl; [|done].
    destruct (P v) eqn:HP; [|done].
    exfalso. apply Hnin, old_keys_spec. by exists v.
Qed.

(** Whatever a sweep leaves in a table was there before. *)
Lemma cleanup_alerts_lookup (now : Q) (s : Service) aid a :
  alerts (cleanup_tick now s).2 !! aid = Some a → alerts s !! aid = Some a.
Proof.
  unfold cleanup_tick. simpl.
  rewrite (sweep_lookup (λ a, Qgtb (now - alert_timestamp a) (604800 # 1))).
  destruct (alerts s !! aid) as [a'|]; [|done]. by destruct (Qgtb _ _).
Qed.

Lemma cleanup_profiles_lookup (now : Q) (s : Service) eid p :
  performance_profiles (cleanup_tick now s).2 !! eid = Some p →
  performance_profiles s !! eid = Some p.
Proof.
  unfold cleanup_tick. simpl.
  rewrite (sweep_lookup (λ p, Qgtb (now - start_time p) (86400 # 1))).
  destruct (performance_profiles s !! eid) as [p'|]; [|done].
  by destruct (Qgtb _ _).
Qed.

(** X1: a housekeeping sweep removes all and only the profiles started
    more than 86400 time units ago and the alerts created more than 604800
    time units ago: an entry is in the table after the sweep exactly when
    it was there before and is not older than its horizon. *)
Theorem cleanup_removes_exactly_the_old (now : Q) (s : Service) :
  (∀ (eid : string) (p : PerformanceProfile),
     performance_profiles (cleanup_tick now s).2 !! eid = Some p ↔
     performance_profiles s !! eid = Some p ∧
     (now - start_time p <= 86400 # 1)%Q) ∧
  (∀ (aid : string) (a : Alert),
     alerts (cleanup_tick now s).2 !! aid = Some a ↔
     alerts s !! aid = Some a ∧ (now - alert_timestamp a <= 604800 # 1)%Q).
Proof.
  unfold cleanup_tick. simpl. split.
  - intros eid p.
    rewrite (sweep_lookup (λ p, Qgtb (now - start_time p) (86400 # 1))).
    destruct (performance_profiles s !! eid) as [p'|]; [|intuition congruence].
    destruct (Qgtb _ _) eqn:Hold.
    + apply Qgtb_true in Hold. split; [done|].
      intros [Heq Hle]. injection Heq as ->. by apply Qlt_not_le in Hold.
    + apply Qgtb_false in Hold. split; [|tauto].
      intros Heq. split; [done|]. by injection Heq as <-.
  - intros aid a.
    rewrite (sweep_lookup (λ a, Qgtb (now - alert_timestamp a) (604800 # 1))).
    destruct (alerts s !! aid) as [a'|]; [|intuition congruence].
    destruct (Qgtb _ _) eqn:Hold.
    + apply Qgtb_true in Hold. split; [done|].
      intros [Heq Hle]. injection Heq as ->. by apply Qlt_not_le in Hold.
    + apply Qgtb_false in Hold. split; [|tauto].
      intros Heq. split; [done|]. by injection Heq as <-.
Qed.

(** A sweep touches nothing but the profile and alert tables. *)
Lemma cleanup_frame (now : Q) (s : Service) :
  let s' := (cleanup_tick now s).2 in
  metrics_buffer s' = metrics_buffer s ∧
  active_executions s' = active_executions s ∧
  minute_metrics s' = minute_metrics s ∧
  hour_metrics s' = hour_metrics s ∧
  day_metrics s' = day_metrics s ∧
  websocket_connections s' = websocket_connections s ∧
  alert_thresholds s' = alert_thresholds s ∧
  pending_tasks s' = pending_tasks s.
Proof. repeat split. Qed.

Lemma filter_nil_Forall {A} (P : A → Prop) `{∀ x, Decision (P x)}
    (l : list A) :
  (∀ x, x ∈ l → ¬ P x) → filter P l = [].
Proof.
  intros Hall. induction l as [|x l IH]; [done|].
  rewrite filter_cons_False by (apply Hall; left).
  apply IH. intros y Hy. apply Hall. by right.
Qed.

Lemma sweep_twice {V} (P : V → bool) (d : gmap string V) :
  filter (λ kv : string * V, P kv.2 = true)
    (map_to_list
       (delete_all
          (filter (λ kv : string * V, P kv.2 = true) (map_to_list d)).*1 d))
  = [].
Proof.
  apply filter_nil_Forall. intros [k v] Hin HP. simpl in HP.
  apply elem_of_map_to_list in Hin. rewrite sweep_lookup in Hin.
  destruct (d !! k) as [v'|]; [|done].
  destruct (P v') eqn:HP'; [done|]. congruence.
Qed.

(** X2: a second sweep at the same clock reading finds nothing left to
    remove: it reports zero removed profiles and alerts and returns the
    state unchanged. *)
Theorem cleanup_twice (now : Q) (s : Service) :
  cleanup_tick now (cleanup_tick now s).2 = ((0%nat, 0%nat), (cleanup_tick now s).2).
Proof.
  unfold cleanup_tick. simpl.
  rewrite (sweep_twice (λ p, Qgtb (now - start_time p) (86400 # 1))).
  rewrite (sweep_twice (λ a, Qgtb (now - alert_timestamp a) (604800 # 1))).
  reflexivity.
Qed.

(** ** What each call leaves alone *)

Lemma run_task_frame send_ok now s :
  let s' := (run_task send_ok now s).1 in
  metrics_buffer s' = metrics_buffer s ∧
  performance_profiles s' = performance_profiles s ∧
  active_executions s' = active_executions s ∧
  minute_metrics s' = minute_metrics s ∧
  hour_metrics s' = hour_metrics s ∧
  day_metrics s' = day_metrics s ∧
  alert_thresholds s' = alert_thresholds s.
Proof.
  unfold run_task. destruct (pending_tasks s) as [|[m|level title msg meta] rest];
    [done| |];
    unfold exec_task, _check_metric_thresholds, _create_alert,
      _broadcast_alert, broadcast; simpl.
  - destruct (alert_thresholds s !! metric_name m) as [th|]; [|done].
    destruct (Qgeb _ _); [|destruct (Qgeb _ _)]; simpl;
      repeat case_decide; done.
  - repeat case_decide; done.
Qed.

Lemma monitoring_tick_frame send_ok now s :
  let s' := (monitoring_tick send_ok now s).1 in
  metrics_buffer s' = metrics_buffer s ∧
  performance_profiles s' = performance_profiles s ∧
  active_executions s' = active_executions s ∧
  hour_metrics s' = hour_metrics s ∧
  day_metrics s' = day_metrics s ∧
  alert_thresholds s' = alert_thresholds s ∧
  pending_tasks s' = pending_tasks s.
Proof.
  unfold monitoring_tick, _broadcast_updates.
  rewrite process_alerts_unfold. cbv zeta.
  destruct (5 <=? _)%nat; [destruct (Qgtb _ _)|]; simpl;
    unfold broadcast, _create_alert, _broadcast_alert, broadcast;
    repeat case_decide; done.
Qed.

Lemma end_execution_tracking_frame eid status error now s :
  let s' := end_execution_tracking eid status error now s in
  alerts s' = alerts s ∧
  minute_metrics s' = minute_metrics s ∧
  hour_metrics s' = hour_metrics s ∧
  day_metrics s' = day_metrics s ∧
  websocket_connections s' = websocket_connections s ∧
  alert_thresholds s' = alert_thresholds s.
Proof.
  unfold end_execution_tracking.
  destruct (performance_profiles s !! eid) as [p|]; [|done]. simpl.
  destruct (active_executions s !! eid); destruct (Qgtb _ _); done.
Qed.

Lemma record_function_call_frame eid function_name dur success now s :
  let s' := record_function_call eid function_name dur success now s in
  alerts s' = alerts s ∧
  active_executions s' = active_executions s ∧
  minute_metrics s' = minute_metrics s ∧
  hour_metrics s' = hour_metrics s ∧
  day_metrics s' = day_metrics s ∧
  websocket_connections s' = websocket_connections s ∧
  alert_thresholds s' = alert_thresholds s.
Proof.
  unfold record_function_call.
  by destruct (performance_profiles s !! eid).
Qed.

(** A property kept by every call holds after every history. *)
Lemma run_invariant (P : Service → Prop) :
  (∀ s call, P s → P (step s call)) →
  ∀ calls s, P s → P (run calls s).
Proof.
  intros Hstep calls. unfold run.
  induction calls as [|call calls IH]; intros s Hs; simpl; [done|].
  apply IH, Hstep, Hs.
Qed.

Lemma run_snoc calls call s :
  run (calls ++ [call]) s = step (run calls s) call.
Proof. unfold run. by rewrite foldl_app. Qed.

(** ** Capacities *)

Lemma deque_append_nonempty {A} (maxlen : N) (x : A) (d : list A) :
  (1 ≤ maxlen)%N → deque_append maxlen x d ≠ [].
Proof.
  intros Hcap. rewrite deque_append_full.
  destruct (N.ltb_spec (N.of_nat (length d)) maxlen) as [Hlt|Hge].
  - by destruct d.
  - destruct d as [|y d]; [simpl in Hge; lia|]. simpl. rewrite drop_0.
    by destruct d.
Qed.

Lemma end_execution_tracking_buffer_bound eid status error now s :
  (N.of_nat (length (metrics_buffer s)) ≤ 10000)%N →
  (N.of_nat (length (metrics_buffer
                       (end_execution_tracking eid status error now s)))
   ≤ 10000)%N.
Proof.
  intros Hb. unfold end_execution_tracking.
  destruct (performance_profiles s !! eid) as [p|]; [|done]. simpl.
  destruct (active_executions s !! eid); destruct (Qgtb _ _); simpl;
    by do 2 apply (deque_append_length METRICS_MAXLEN).
Qed.

Lemma record_function_call_buffer_bound eid function_name dur success now s :
  (N.of_nat (length (metrics_buffer s)) ≤ 10000)%N →
  (N.of_nat (length (metrics_buffer
                       (record_function_call eid function_name dur success
                          now s))) ≤ 10000)%N.
Proof.
  intros Hb. unfold record_function_call.
  destruct (performance_profiles s !! eid) as [p|]; [|done]. simpl.
  by apply (deque_append_length METRICS_MAXLEN).
Qed.

Lemma monitoring_tick_minute_lookup send_ok now s name w :
  minute_metrics (monitoring_tick send_ok now s).1 !! name = Some w →
  minute_metrics s !! name = Some w ∨
  ∃ wp, w = deque_append MINUTE_MAXLEN wp
              (default [] (minute_metrics s !! name)).
Proof.
  rewrite monitoring_tick_minute. unfold _update_aggregations. simpl.
  rewrite aggregate_fold_lookup.
  destruct (group_by_name _ _ !! name) as [[|v vs]|]; [by left | | by left].
  intros [= <-]. right. by eexists.
Qed.

Lemma step_bounded s call : bounded s → bounded (step s call).
Proof.
  intros (Hbuf & Hwin & Hhour & Hday & Hth).
  destruct call as [op now]. unfold step, bounded. simpl.
  destruct op as [name value tags mtype|eid metadata|eid status error
                 |eid fn dur success|send_ok|send_ok| |ws|ws].
  - split; [by apply (deque_append_length METRICS_MAXLEN)|done].
  - split; [by apply (deque_append_length METRICS_MAXLEN)|done].
  - destruct (end_execution_tracking_frame eid status error now s)
      as (_ & -> & -> & -> & _ & ->).
    split; [by apply end_execution_tracking_buffer_bound|done].
  - destruct (record_function_call_frame eid fn dur success now s)
      as (_ & _ & -> & -> & -> & _ & ->).
    split; [by apply record_function_call_buffer_bound|done].
  - destruct (run_task_frame send_ok now s)
      as (-> & _ & _ & -> & -> & -> & ->). done.
  - destruct (monitoring_tick_frame send_ok now s)
      as (-> & _ & _ & -> & -> & -> & _).
    split; [done|]. split; [|done].
    intros name w Hw.
    apply monitoring_tick_minute_lookup in Hw as [Hold|[wp ->]];
      [by apply (Hwin name)|].
    split; [by apply deque_append_nonempty|].
    apply deque_append_length.
    destruct (minute_metrics s !! name) as [w0|] eqn:Hw0; simpl; [|lia].
    by apply (Hwin name).
  - done.
  - done.
  - done.
Qed.

Lemma new_service_bounded : bounded new_service.
Proof.
  unfold bounded. simpl. split; [lia|]. split; [|done].
  intros name w Hw. by rewrite lookup_empty in Hw.
Qed.

(** X3: after any history of calls on a fresh service the metrics buffer
    holds at most 10000 entries, every minute window that exists holds
    between 1 and 60 points, the hour and day windows are still empty, and
    the thresholds are still the four pairs of [__init__]. *)
Theorem capacities_respected (calls : list (Op * Q)) :
  bounded (run calls new_service).
Proof.
  apply run_invariant; [apply step_bounded | apply new_service_bounded].
Qed.

(** ** The alert table *)

Lemma create_alert_alerts level title message metadata send_ok now s :
  alerts (_create_alert level title message metadata send_ok now s).1
  = <[make_alert_id now :=
        {| alert_id := make_alert_id now; alert_level := level;
           alert_title := title; alert_message := message;
           alert_timestamp := now; alert_resolved := false;
           alert_metadata := metadata |}]> (alerts s).
Proof.
  unfold _create_alert, _broadcast_alert. simpl. by rewrite broadcast_alerts.
Qed.

Lemma create_alert_coherent level title message metadata send_ok now s :
  alerts_coherent s →
  alerts_coherent (_create_alert level title message metadata send_ok now s).1.
Proof.
  intros Hco aid a. rewrite create_alert_alerts.
  intros Hl. apply lookup_insert_Some in Hl as [[<- <-]|[_ Hl]]; [done|].
  by apply Hco.
Qed.

Lemma check_metric_thresholds_coherent m send_ok now s :
  alerts_coherent s →
  alerts_coherent (_check_metric_thresholds m send_ok now s).1.
Proof.
  intros Hco. unfold _check_metric_thresholds.
  destruct (alert_thresholds s !! metric_name m) as [th|]; [|done].
  destruct (Qgeb _ _); [by apply create_alert_coherent|].
  destruct (Qgeb _ _); [by apply create_alert_coherent|done].
Qed.

Lemma run_task_coherent send_ok now s :
  alerts_coherent s → alerts_coherent (run_task send_ok now s).1.
Proof.
  intros Hco. unfold run_task.
  destruct (pending_tasks s) as [|[m|level title msg meta] rest]; [done| |].
  - by apply check_metric_thresholds_coherent.
  - by apply create_alert_coherent.
Qed.

Lemma monitoring_tick_coherent send_ok now s :
  alerts_coherent s → alerts_coherent (monitoring_tick send_ok now s).1.
Proof.
  intros Hco. unfold alerts_coherent.
  rewrite monitoring_tick_alerts, process_alerts_unfold. cbv zeta.
  destruct (5 <=? _)%nat; [|done].
  destruct (Qgtb _ _); [|done]. by apply create_alert_coherent.
Qed.

Lemma step_alerts_coherent s call :
  alerts_coherent s → alerts_coherent (step s call).
Proof.
  intros Hco. destruct call as [op now]. unfold step. simpl.
  destruct op as [name value tags mtype|eid metadata|eid status error
                 |eid fn dur success|send_ok|send_ok| |ws|ws]; try done.
  - unfold alerts_coherent.
    by destruct (end_execution_tracking_frame eid status error now s) as [-> _].
  - unfold alerts_coherent.
    by destruct (record_function_call_frame eid fn dur success now s)
      as [-> _].
  - by apply run_task_coherent.
  - by apply monitoring_tick_coherent.
  - intros aid a Hl.
    apply (cleanup_alerts_lookup now s) in Hl. by apply Hco.
Qed.

(** X4: after any history of calls on a fresh service every alert in the
    table is stored under its own id and is unresolved: no call of the
    service ever resolves an alert. *)
Theorem alerts_stay_coherent (calls : list (Op * Q)) :
  alerts_coherent (run calls new_service).
Proof.
  apply run_invariant; [apply step_alerts_coherent|].
  intros aid a Hl. simpl in Hl. by rewrite lookup_empty in Hl.
Qed.

(** ** Profiles and executions *)

(** Everything [end_execution_tracking] does to the profile of a known id. *)
Lemma end_execution_tracking_profile_full eid status error now s p :
  performance_profiles s !! eid = Some p →
  performance_profiles (end_execution_tracking eid status error now s)
  = <[eid :=
        {| execution_id := execution_id p; start_time := start_time p;
           end_time := Some now;
           duration_ms := Some ((now - start_time p) * (1000 # 1))%Q;
           cpu_usage := cpu_usage p; memory_usage_mb := memory_usage_mb p;
           network_io_kb := network_io_kb p; disk_io_kb := disk_io_kb p;
           function_calls := function_calls p;
           bottlenecks :=
             bottlenecks p ++
               (if Qgtb ((now - start_time p) * (1000 # 1)) (5000 # 1)
                then ["slow_execution"] else []) |}]>
      (performance_profiles s).
Proof.
  intros Hl. unfold end_execution_tracking. rewrite Hl. simpl.
  destruct (Qgtb ((now - start_time p) * (1000 # 1)) (5000 # 1));
    destruct (active_executions s !! eid); simpl;
    rewrite ?insert_insert_eq, ?app_nil_r; reflexivity.
Qed.

(** The entry of [active_executions] after [end_execution_tracking]. *)
Lemma end_execution_tracking_active eid status error now s :
  active_executions (end_execution_tracking eid status error now s)
  = match performance_profiles s !! eid, active_executions s !! eid with
    | Some _, Some e =>
        <[eid := {| ex_start_time := ex_start_time e;
                    ex_metadata := ex_metadata e; ex_status := status;
                    ex_end_time := Some now;
                    ex_error := if truthy_error error then error
                                else ex_error e |}]> (active_executions s)
    | _, _ => active_executions s
    end.
Proof.
  unfold end_execution_tracking.
  destruct (performance_profiles s !! eid) as [p|]; [|done]. simpl.
  destruct (active_executions s !! eid); destruct (Qgtb _ _); done.
Qed.

Lemma lookup_insert_is_Some_keep {V} (m : gmap string V) i j x :
  is_Some (m !! j) → is_Some (<[i := x]> m !! j).
Proof.
  intros Hj. apply lookup_insert_is_Some.
  destruct (decide (i = j)); [by left | by right].
Qed.

Lemma step_active_executions_grow s call k :
  is_Some (active_executions s !! k) →
  is_Some (active_executions (step s call) !! k).
Proof.
  intros Hk. destruct call as [op now]. unfold step. simpl.
  destruct op as [name value tags mtype|eid metadata|eid status error
                 |eid fn dur success|send_ok|send_ok| |ws|ws]; try done.
  - simpl. by apply lookup_insert_is_Some_keep.
  - rewrite end_execution_tracking_active.
    destruct (performance_profiles s !! eid); [|done].
    destruct (active_executions s !! eid); [|done].
    by apply lookup_insert_is_Some_keep.
  - by destruct (record_function_call_frame eid fn dur success now s)
      as (_ & -> & _).
  - by destruct (run_task_frame send_ok now s) as (_ & _ & -> & _).
  - by destruct (monitoring_tick_frame send_ok now s) as (_ & _ & -> & _).
Qed.

(** X5: no call of the service removes an entry of [active_executions]:
    an execution that is in the table stays in it through every history of
    calls, housekeeping sweeps included. *)
Theorem active_executions_never_shrink (calls : list (Op * Q)) (s : Service)
    (eid : string) :
  is_Some (active_executions s !! eid) →
  is_Some (active_executions (run calls s) !! eid).
Proof.
  intros Hk. revert s Hk. unfold run.
  induction calls as [|call calls IH]; intros s Hk; simpl; [done|].
  by apply IH, step_active_executions_grow.
Qed.

Lemma active_executions_never_shrink_witness :
  is_Some (active_executions
             (run [(OpEnd "e1" "completed" None, 1%Q);
                   (OpCleanup, 100000 # 1)] started_service) !! "e1") ∧
  performance_profiles
    (run [(OpEnd "e1" "completed" None, 1%Q);
          (OpCleanup, 100000 # 1)] started_service) !! "e1" = None.
Proof.
  split.
  - apply (active_executions_never_shrink
             [(OpEnd "e1" "completed" None, 1%Q); (OpCleanup, 100000 # 1)]
             started_service "e1").
    vm_compute. by eexists.
  - vm_compute. reflexivity.
Defined.

Lemma step_profiles_coherent s call :
  profiles_coherent s → profiles_coherent (step s call).
Proof.
  intros Hco. destruct call as [op now].
  destruct op as [name value tags mtype|eid metadata|eid status error
                 |eid fn dur success|send_ok|send_ok| |ws|ws];
    unfold step; simpl; try done.
  - intros k p. simpl. intros Hl.
    apply lookup_insert_Some in Hl as [[<- <-]|[Hne Hl]].
    + split; [done|]. split; [|done]. rewrite lookup_insert_eq. by eexists.
    + destruct (Hco k p Hl) as (? & ? & ?). split; [done|]. split; [|done].
      by apply lookup_insert_is_Some_keep.
  - intros k p Hl.
    assert (∀ j, is_Some (active_executions s !! j) →
                 is_Some (active_executions
                            (end_execution_tracking eid status error now s)
                            !! j)) as Hact.
    { intros j. apply (step_active_executions_grow s (OpEnd eid status error, now)). }
    destruct (performance_profiles s !! eid) as [p0|] eqn:Hp0.
    + rewrite (end_execution_tracking_profile_full _ _ _ _ _ p0 Hp0) in Hl.
      apply lookup_insert_Some in Hl as [[<- <-]|[Hne Hl]].
      * destruct (Hco eid p0 Hp0) as (? & ? & ?). simpl.
        split; [done|]. split; [by apply Hact|done].
      * destruct (Hco k p Hl) as (? & ? & ?).
        split; [done|]. split; [by apply Hact|done].
    + unfold end_execution_tracking in Hl |- *. rewrite Hp0 in Hl |- *.
      by apply Hco.
  - intros k p. unfold record_function_call.
    destruct (performance_profiles s !! eid) as [p0|] eqn:Hp0; [|by apply Hco].
    simpl. intros Hl.
    apply lookup_insert_Some in Hl as [[<- <-]|[Hne Hl]]; [|by apply Hco].
    by destruct (Hco eid p0 Hp0) as (? & ? & ?).
  - intros k p.
    destruct (run_task_frame send_ok now s) as (_ & -> & -> & _). apply Hco.
  - intros k p.
    destruct (monitoring_tick_frame send_ok now s) as (_ & -> & -> & _).
    apply Hco.
  - intros k p Hl. apply cleanup_profiles_lookup in Hl. by apply Hco.
Qed.

(** X6: after any history of calls on a fresh service every profile is
    stored under its own execution id, still has its entry in
    [active_executions], and has a duration exactly when it has an end
    time, the duration being [(end_time - start_time) * 1000]. *)
Theorem profiles_stay_coherent (calls : list (Op * Q)) :
  profiles_coherent (run calls new_service).
Proof.
  apply run_invariant; [apply step_profiles_coherent|].
  intros eid p Hl. simpl in Hl. by rewrite lookup_empty in Hl.
Qed.

(** ** Two alert creations in a row *)

(** X7: of two successive alert creations, both records are in the table
    afterwards when the two values of [int(time.time() * 1000)] read for
    their ids differ; when these are equal, the table is the one before the
    first creation with only the second record added. *)
Theorem two_creations (level1 level2 : AlertLevel) (title1 title2 : string)
    (message1 message2 : Message) (metadata1 metadata2 : Metadata)
    (send_ok1 send_ok2 : nat → bool) (reads1 reads2 : ClockReads)
    (s : Service) :
  let r1 :=
    _create_alert_reads level1 title1 message1 metadata1 send_ok1 reads1 s in
  let r2 :=
    _create_alert_reads level2 title2 message2 metadata2 send_ok2 reads2
      r1.1 in
  (read_ms reads1 ≠ read_ms reads2 →
   ∃ a1 a2, r1.2 = [a1] ∧ r2.2 = [a2] ∧ alert_id a1 ≠ alert_id a2 ∧
            alerts r2.1 !! alert_id a1 = Some a1 ∧
            alerts r2.1 !! alert_id a2 = Some a2) ∧
  (read_ms reads1 = read_ms reads2 →
   ∃ a2, r2.2 = [a2] ∧ alerts r2.1 = <[alert_id a2 := a2]> (alerts s)).
Proof.
  intros r1 r2. subst r1 r2.
  pose proof (create_alert_reads_alerts level1 title1 message1 metadata1
                send_ok1 reads1 s) as Hal1.
  pose proof (create_alert_reads_alerts level2 title2 message2 metadata2
                send_ok2 reads2
                (_create_alert_reads level1 title1 message1 metadata1
                   send_ok1 reads1 s).1) as Hal2.
  rewrite Hal1 in Hal2. split.
  - intros Hms.
    assert ("alert-" +:+ pretty (read_ms reads1)
            ≠ "alert-" +:+ pretty (read_ms reads2)) as Hne.
    { intros Heq. apply Hms. simpl in Heq.
      apply (inj (String.append "alert-")) in Heq.
      by apply (inj pretty) in Heq. }
    eexists. eexists.
    split; [reflexivity|]. split; [reflexivity|].
    split; [exact Hne|]. rewrite Hal2. split.
    + rewrite lookup_insert_ne by (intros Heq; by apply Hne).
      apply lookup_insert_eq.
    + apply lookup_insert_eq.
  - intros Hms. eexists.
    split; [reflexivity|]. rewrite Hal2. cbn [alert_id].
    rewrite Hms. apply insert_insert_eq.
Qed.

(** The floats 1762000000.001 and 1762000000.0015 give the same
    [int(t * 1000)], although their exact milliseconds differ. *)
Example float_ms_examples :
  float_ms (3695181824002097 # 2097152) = 1762000000001 ∧
  float_ms (7390363648006291 # 4194304) = 1762000000001 ∧
  Qfloor ((3695181824002097 # 2097152) * (1000 # 1)) = 1762000000000 ∧
  float_ms 1 = 1000 ∧ float_ms (2 # 1) = 2000.
Proof. vm_compute. done. Qed.

Lemma two_creations_witness :
  (∃ a1 a2,
     alerts (_create_alert_reads WARNING "High cpu_usage_percent"
               (MsgAboveWarning "cpu_usage_percent" (90 # 1))
               (MetaMetric (sample "cpu_usage_percent" (90 # 1) 1))
               all_delivered (reads_at (2 # 1))
               (_create_alert_reads CRITICAL "High Error Rate Detected"
                  (MsgHighErrorRate (1 # 2)) (MetaErrorRate (1 # 2) 5)
                  all_delivered (reads_at 1) new_service).1).1
       !! "alert-1000" = Some a1 ∧
     alerts (_create_alert_reads WARNING "High cpu_usage_percent"
               (MsgAboveWarning "cpu_usage_percent" (90 # 1))
               (MetaMetric (sample "cpu_usage_percent" (90 # 1) 1))
               all_delivered (reads_at (2 # 1))
               (_create_alert_reads CRITICAL "High Error Rate Detected"
                  (MsgHighErrorRate (1 # 2)) (MetaErrorRate (1 # 2) 5)
                  all_delivered (reads_at 1) new_service).1).1
       !! "alert-2000" = Some a2) ∧
  (∃ a2,
     alerts (_create_alert_reads WARNING "High cpu_usage_percent"
               (MsgAboveWarning "cpu_usage_percent" (90 # 1))
               (MetaMetric (sample "cpu_usage_percent" (90 # 1) 1))
               all_delivered (reads_at (7390363648006291 # 4194304))
               (_create_alert_reads CRITICAL "High Error Rate Detected"
                  (MsgHighErrorRate (1 # 2)) (MetaErrorRate (1 # 2) 5)
                  all_delivered (reads_at (3695181824002097 # 2097152))
                  new_service).1).1
     = <[alert_id a2 := a2]> (alerts new_service)).
Proof.
  split.
  - destruct (two_creations CRITICAL WARNING "High Error Rate Detected"
                "High cpu_usage_percent" (MsgHighErrorRate (1 # 2))
                (MsgAboveWarning "cpu_usage_percent" (90 # 1))
                (MetaErrorRate (1 # 2) 5)
                (MetaMetric (sample "cpu_usage_percent" (90 # 1) 1))
                all_delivered all_delivered (reads_at 1) (reads_at (2 # 1))
                new_service)
      as [Hdiff _].
    destruct Hdiff as (a1 & a2 & H1 & H2 & _ & Hl1 & Hl2);
      [vm_compute; discriminate|].
    injection H1 as <-. injection H2 as <-.
    eexists. eexists. split; [exact Hl1 | exact Hl2].
  - destruct (two_creations CRITICAL WARNING "High Error Rate Detected"
                "High cpu_usage_percent" (MsgHighErrorRate (1 # 2))
                (MsgAboveWarning "cpu_usage_percent" (90 # 1))
                (MetaErrorRate (1 # 2) 5)
                (MetaMetric (sample "cpu_usage_percent" (90 # 1) 1))
                all_delivered all_delivered
                (reads_at (3695181824002097 # 2097152))
                (reads_at (7390363648006291 # 4194304)) new_service)
      as [_ Hsame].
    destruct Hsame as (a2 & _ & Hal); [vm_compute; reflexivity|].
    exists a2. exact Hal.
Defined.

(** ** Subscribers *)

Lemma broadcast_websockets send_ok s :
  websocket_connections (broadcast send_ok s)
  = filter (λ w, send_ok w = true) (websocket_connections s).
Proof.
  unfold broadcast. case_decide as He; [|done].
  rewrite He. apply set_eq. intros w.
  rewrite elem_of_filter, elem_of_empty. tauto.
Qed.

Lemma filter_filter_same (send_ok : nat → bool) (X : gset nat) :
  filter (λ w, send_ok w = true) (filter (λ w, send_ok w = true) X)
  = filter (λ w, send_ok w = true) X.
Proof. apply set_eq. intros w. rewrite !elem_of_filter. tauto. Qed.

(** X8: every alert creation and every fast-heartbeat tick prunes the
    subscriber set: afterwards it holds all and only the former subscribers
    whose delivery succeeded, so it never grows. *)
Theorem failed_subscribers_pruned (send_ok : nat → bool) (now : Q)
    (s : Service) (level : AlertLevel) (title : string) (message : Message)
    (metadata : Metadata) :
  websocket_connections
    (_create_alert level title message metadata send_ok now s).1
  = filter (λ w, send_ok w = true) (websocket_connections s) ∧
  websocket_connections (monitoring_tick send_ok now s).1
  = filter (λ w, send_ok w = true) (websocket_connections s) ∧
  (websocket_connections (monitoring_tick send_ok now s).1)
    ⊆ (websocket_connections s).
Proof.
  assert (websocket_connections (monitoring_tick send_ok now s).1
          = filter (λ w, send_ok w = true) (websocket_connections s)) as Htick.
  { unfold monitoring_tick, _broadcast_updates.
    rewrite process_alerts_unfold. cbv zeta.
    destruct (5 <=? _)%nat; [destruct (Qgtb _ _)|]; simpl;
      rewrite broadcast_websockets; simpl; try done.
    unfold _broadcast_alert. rewrite broadcast_websockets. simpl.
    apply filter_filter_same. }
  split; [|split; [exact Htick|]].
  - unfold _create_alert, _broadcast_alert. simpl.
    by rewrite broadcast_websockets.
  - rewrite Htick. intros w Hw. by apply elem_of_filter in Hw as [_ Hw].
Qed.

(** Three subscribers of which one always fails: after one tick two are
    left. *)
Example one_of_three_subscribers_fails :
  websocket_connections
    (monitoring_tick (λ w, negb (w =? 2)%nat) 1
       (register_websocket 3
          (register_websocket 2 (register_websocket 1 new_service)))).1
  = {[1%nat; 3%nat]}.
Proof. vm_compute. reflexivity. Qed.

(** X9: registering is idempotent, unregistering a connection that is not
    registered changes nothing, and unregistering right after registering
    a new connection gives back the state before. *)
Theorem register_unregister (ws : nat) (s : Service) :
  register_websocket ws (register_websocket ws s) = register_websocket ws s ∧
  (ws ∈ websocket_connections (register_websocket ws s)) ∧
  (ws ∉ websocket_connections (unregister_websocket ws s)) ∧
  ((ws ∉ websocket_connections s) →
   unregister_websocket ws s = s ∧
   unregister_websocket ws (register_websocket ws s) = s).
Proof.
  unfold register_websocket, unregister_websocket, set_websocket_connections.
  simpl. split; [|split; [|split]].
  - f_equal. apply set_eq. intros w. rewrite !elem_of_union. tauto.
  - apply elem_of_union. left. by apply elem_of_singleton.
  - rewrite elem_of_difference, elem_of_singleton. tauto.
  - intros Hnin.
    assert (websocket_connections s ∖ {[ws]} = websocket_connections s) as ->.
    { apply set_eq. intros w. rewrite elem_of_difference, elem_of_singleton.
      split; [tauto|]. intros Hw. split; [done|]. by intros ->. }
    assert (({[ws]} ∪ websocket_connections s) ∖ {[ws]}
            = websocket_connections s) as ->.
    { apply set_eq. intros w.
      rewrite elem_of_difference, elem_of_union, elem_of_singleton.
      split; [tauto|]. intros Hw. split; [by right|]. by intros ->. }
    by destruct s.
Qed.

Lemma register_unregister_witness :
  unregister_websocket 7 new_service = new_service ∧
  unregister_websocket 7 (register_websocket 7 new_service) = new_service.
Proof.
  apply (register_unregister 7 new_service). simpl. apply not_elem_of_empty.
Defined.

(** ** Aggregates *)

Lemma window_point_well_formed (minute : Z) (values : list Q) :
  values ≠ [] → point_well_formed (window_point (minute * 60) values).
Proof.
  intros Hne.
  destruct (window_point_is_aggregate (minute * 60) values Hne)
    as (_ & _ & _ & Hmin & Hmax & _).
  split; [|split].
  - simpl. destruct values; [done | simpl; lia].
  - simpl. apply Z_mod_mult.
  - by apply Hmin.
Qed.

Lemma elem_of_deque_append {A} (maxlen : N) (x y : A) (d : list A) :
  y ∈ deque_append maxlen x d → y = x ∨ y ∈ d.
Proof.
  unfold deque_append.
  destruct (_ <? _)%N; intros Hy.
  - apply subseteq_drop in Hy. apply elem_of_app in Hy as [Hy|Hy]; [by right|].
    left. by apply list_elem_of_singleton in Hy.
  - apply elem_of_app in Hy as [Hy|Hy]; [by right|].
    left. by apply list_elem_of_singleton in Hy.
Qed.

Lemma monitoring_tick_minute_points send_ok now s name w :
  minute_metrics (monitoring_tick send_ok now s).1 !! name = Some w →
  minute_metrics s !! name = Some w ∨
  ∃ values, values ≠ [] ∧
    w = deque_append MINUTE_MAXLEN
          (window_point (floor_div now 60 * 60) values)
          (default [] (minute_metrics s !! name)).
Proof.
  rewrite monitoring_tick_minute. unfold _update_aggregations. simpl.
  rewrite aggregate_fold_lookup.
  destruct (group_by_name _ _ !! name) as [[|v vs]|]; [by left | | by left].
  intros [= <-]. right. by exists (v :: vs).
Qed.

Lemma step_windows_well_formed s call :
  windows_well_formed s → windows_well_formed (step s call).
Proof.
  intros Hwf. destruct call as [op now].
  destruct op as [name value tags mtype|eid metadata|eid status error
                 |eid fn dur success|send_ok|send_ok| |ws|ws];
    unfold step, windows_well_formed; simpl; try done.
  - by destruct (end_execution_tracking_frame eid status error now s)
      as (_ & -> & _).
  - by destruct (record_function_call_frame eid fn dur success now s)
      as (_ & _ & -> & _).
  - by destruct (run_task_frame send_ok now s) as (_ & _ & _ & -> & _).
  - intros name w wp Hw Hwp.
    apply monitoring_tick_minute_points in Hw as [Hold|(values & Hne & ->)];
      [by apply (Hwf name w)|].
    apply elem_of_deque_append in Hwp as [->|Hwp];
      [by apply window_point_well_formed|].
    destruct (minute_metrics s !! name) as [w0|] eqn:Hw0; simpl in Hwp.
    + by apply (Hwf name w0).
    + by apply elem_of_nil in Hwp.
Qed.

(** X10: after any history of calls on a fresh service every point stored
    in a minute window aggregates at least one sample, is stamped with the
    start of a minute (a multiple of 60), and has a minimum that is not
    above its maximum. *)
Theorem window_points_well_formed (calls : list (Op * Q)) :
  windows_well_formed (run calls new_service).
Proof.
  apply run_invariant; [apply step_windows_well_formed|].
  intros name w wp Hw. simpl in Hw. by rewrite lookup_empty in Hw.
Qed.

(** ** The metrics summary *)

(** X11: the metrics summary has an entry for a name exactly when the
    buffer holds metrics of that name recorded less than 60 time units
    ago, and the entry carries their count, their minimum and maximum
    (values among them that bound them all) and the value of the most
    recent one. *)
Theorem metrics_summary_entries (now : Q) (s : Service) (name : string) :
  let summary := (_get_metrics_summary now s).1 in
  let values :=
    values_named name (recent_within (60 # 1) now (metrics_buffer s)) in
  (values = [] → summary !! name = None) ∧
  (values ≠ [] → ∃ sm, summary !! name = Some sm ∧ is_summary values sm).
Proof.
  intros summary values. subst summary. unfold _get_metrics_summary.
  assert (values
          = metric_value <$>
              filter (λ m, metric_name m = name)
                     (recent_within (60 # 1) now (metrics_buffer s))) as Hv
    by reflexivity.
  destruct (recent_within (60 # 1) now (metrics_buffer s)) as [|m0 l0] eqn:Hr.
  { simpl. split; [by rewrite lookup_empty|]. intros Hne. by rewrite Hv in Hne. }
  cbn [fst]. rewrite lookup_fmap, group_by_name_lookup. rewrite <- Hr in *.
  destruct (filter (λ m, metric_name m = name)
                   (recent_within (60 # 1) now (metrics_buffer s)))
    as [|m l] eqn:Hf.
  { split; [done|]. intros Hne. by rewrite Hv in Hne. }
  split; [intros He; by rewrite Hv in He|]. intros Hne.
  eexists. split; [reflexivity|].
  change (metric_value <$> m :: l) with (metric_value m :: (metric_value <$> l)).
  rewrite Hv. simpl fmap.
  set (vals := metric_value m :: (metric_value <$> l)).
  destruct (window_point_is_aggregate 0 vals) as (Hc & Ha & Hmi & Hmil & Hma & Hmal);
    [done|].
  unfold is_summary. cbn [sm_count sm_avg sm_min sm_max sm_latest].
  split; [done|]. split; [exact Hmi|].
  split; [exact Hmil|]. split; [exact Hma|]. split; [exact Hmal|].
  destruct (last vals) as [x|] eqn:Hl; [done|].
  by apply last_None in Hl.
Qed.

Lemma metrics_summary_entries_witness :
  (_get_metrics_summary (200 # 1) late_sample_service).1
    !! "cpu_usage_percent" = None ∧
  ∃ sm, (_get_metrics_summary (61 # 1) late_sample_service).1
          !! "cpu_usage_percent" = Some sm ∧
        is_summary [50 # 1]%Q sm.
Proof.
  pose proof (metrics_summary_entries (200 # 1) late_sample_service
                "cpu_usage_percent") as Hold.
  pose proof (metrics_summary_entries (61 # 1) late_sample_service
                "cpu_usage_percent") as Hnew.
  cbv zeta in Hold, Hnew.
  assert (values_named "cpu_usage_percent"
            (recent_within (60 # 1) (61 # 1)
               (metrics_buffer late_sample_service)) = [50 # 1]%Q) as Hv
    by (vm_compute; reflexivity).
  rewrite Hv in Hnew.
  destruct Hold as [Hold _]. destruct Hnew as [_ Hnew]. split.
  - apply Hold. vm_compute. reflexivity.
  - apply Hnew. discriminate.
Defined.

(** ** Health and the alert endpoints *)

Lemma health_status_critical_count now s :
  h_status (get_system_health now s).1 = "critical" ↔
  (0 < length (filter (λ a, unresolved_critical a = true)
                      (map_to_list (alerts s)).*2))%nat.
Proof.
  unfold get_system_health. simpl.
  destruct (Nat.ltb_spec 0
              (length (filter (λ a, unresolved_critical a = true)
                              (map_to_list (alerts s)).*2))) as [Hpos|Hz].
  - split; [intros _; exact Hpos | done].
  - split; [|lia]. intros Hst.
    repeat match type of Hst with
           | (if ?b then _ else _) = _ => destruct b
           end; discriminate Hst.
Qed.

(** X12: after any history of calls on a fresh service the health status
    is critical exactly when the alert table holds a CRITICAL alert: since
    no call resolves an alert, a CRITICAL alert keeps the status critical
    for as long as it is in the table.  The reported buffer size is at
    most 10000. *)
Theorem health_of_reachable_state (calls : list (Op * Q)) (now : Q) :
  let s := run calls new_service in
  let h := (get_system_health now s).1 in
  (h_status h = "critical" ↔
   ∃ (aid : string) (a : Alert),
     alerts s !! aid = Some a ∧ alert_level a = CRITICAL) ∧
  (N.of_nat (h_metrics_buffer_size h) ≤ 10000)%N.
Proof.
  intros s h. subst h. split.
  - rewrite health_status_critical_count, critical_alerts_pos.
    assert (alerts_coherent s) as Hco.
    { apply run_invariant; [apply step_alerts_coherent|].
      intros aid a Hl. simpl in Hl. by rewrite lookup_empty in Hl. }
    split.
    + intros (aid & a & Hl & Hlev & _). by exists aid, a.
    + intros (aid & a & Hl & Hlev). exists aid, a.
      split; [done|]. split; [done|]. by apply (Hco aid a).
  - assert (bounded s) as [Hb _]
      by (apply run_invariant; [apply step_bounded | apply new_service_bounded]).
    exact Hb.
Qed.

(** X13: the alerts endpoint returns all and only the unresolved alerts
    younger than 3600 time units, with their number as count; whenever one
    of them is CRITICAL the health endpoint reports "critical". *)
Theorem active_alerts_endpoint (now : Q) (s : Service) :
  let r := get_active_alerts now s in
  (∀ a : Alert,
     a ∈ aa_alerts r ↔
     ∃ aid : string,
       alerts s !! aid = Some a ∧ alert_resolved a = false ∧
       (now - alert_timestamp a < 3600 # 1)%Q) ∧
  aa_count r = length (aa_alerts r) ∧
  ((∃ a, a ∈ aa_alerts r ∧ alert_level a = CRITICAL) →
   h_status (get_system_health now s).1 = "critical").
Proof.
  intros r. subst r. unfold get_active_alerts. simpl.
  assert (∀ a : Alert,
            a ∈ filter (λ a, alert_resolved a = false ∧
                             Qltb (now - alert_timestamp a) (3600 # 1) = true)
                       (map_to_list (alerts s)).*2 ↔
            ∃ aid : string,
              alerts s !! aid = Some a ∧ alert_resolved a = false ∧
              (now - alert_timestamp a < 3600 # 1)%Q) as Hspec.
  { intros a. rewrite list_elem_of_filter, list_elem_of_fmap, Qltb_true. split.
    - intros [[Hres Hage] ([aid a'] & -> & Hin)].
      apply elem_of_map_to_list in Hin. by exists aid.
    - intros (aid & Hl & Hres & Hage). split; [done|].
      exists (aid, a). split; [done|]. by apply elem_of_map_to_list. }
  split; [exact Hspec|]. split; [done|].
  intros (a & Hin & Hlev). apply Hspec in Hin as (aid & Hl & Hres & _).
  apply health_status_critical_count, critical_alerts_pos.
  by exists aid, a.
Qed.

Lemma active_alerts_endpoint_witness :
  h_status (get_system_health (10 # 1) stale_alert_service).1 = "critical".
Proof.
  apply (active_alerts_endpoint (10 # 1) stale_alert_service).
  exists {| alert_id := "alert-0"; alert_level := CRITICAL;
            alert_title := "High Error Rate Detected";
            alert_message := MsgHighErrorRate (1 # 2);
            alert_timestamp := 0; alert_resolved := false;
            alert_metadata := MetaErrorRate (1 # 2) 5 |}.
  split; [|reflexivity]. vm_compute. left.
Defined.

(** ** Recommendations *)

(** X14: the recommendations of a profile are, in this order and each at
    most once: the duration advice exactly when a duration above 3000 ms
    is set, the memory advice exactly when the memory usage is above 256,
    the list of the slow function names exactly when some call took more
    than 1000 ms, and the batching advice exactly when more than 100 calls
    were recorded. *)
Theorem recommendations_spec (p : PerformanceProfile) :
  ∃ r1 r2 r3 r4 : list string,
    _generate_performance_recommendations p = r1 ++ r2 ++ r3 ++ r4 ∧
    ((∃ d, duration_ms p = Some d ∧ (3000 # 1 < d)%Q) ∧ r1 = [rec_duration] ∨
     (∀ d, duration_ms p = Some d → (d <= 3000 # 1)%Q) ∧ r1 = []) ∧
    ((256 # 1 < memory_usage_mb p)%Q ∧ r2 = [rec_memory] ∨
     (memory_usage_mb p <= 256 # 1)%Q ∧ r2 = []) ∧
    ((∃ fc, fc ∈ function_calls p ∧ (1000 # 1 < fc_duration_ms fc)%Q) ∧
     r3 = [rec_slow_functions (fc_function <$> slow_calls p)] ∨
     (∀ fc, fc ∈ function_calls p → (fc_duration_ms fc <= 1000 # 1)%Q) ∧
     r3 = []) ∧
    ((100 < length (function_calls p))%nat ∧ r4 = [rec_batching] ∨
     (length (function_calls p) ≤ 100)%nat ∧ r4 = []).
Proof.
  unfold _generate_performance_recommendations.
  eexists. eexists. eexists. eexists. split; [reflexivity|].
  split; [|split; [|split]].
  - destruct (duration_ms p) as [d|]; [|right; split; [by intros d|done]].
    destruct (Qgtb d (3000 # 1)) eqn:Hd.
    + apply Qgtb_true in Hd.
      destruct (Qeq_bool d 0) eqn:Hz.
      * apply Qeq_bool_iff in Hz. rewrite Hz in Hd.
        exfalso. revert Hd. unfold Qlt. simpl. lia.
      * left. split; [by exists d | done].
    + apply Qgtb_false in Hd. right. rewrite andb_false_r.
      split; [|done]. intros d' Hd'. by injection Hd' as <-.
  - destruct (Qgtb (memory_usage_mb p) (256 # 1)) eqn:Hm.
    + apply Qgtb_true in Hm. by left.
    + apply Qgtb_false in Hm. by right.
  - fold (slow_calls p).
    destruct (slow_calls p) as [|fc l] eqn:Hs.
    + right. split; [|done]. intros fc Hfc.
      apply Qgtb_false. apply not_true_is_false. intros Hgt.
      assert (fc ∈ slow_calls p) as Hin
        by (apply list_elem_of_filter; done).
      rewrite Hs in Hin. by apply elem_of_nil in Hin.
    + left. split; [|done]. exists fc.
      assert (fc ∈ slow_calls p) as Hin by (rewrite Hs; left).
      apply list_elem_of_filter in Hin as [Hgt Hin].
      split; [done|]. by apply Qgtb_true.
  - destruct (Nat.ltb_spec 100 (length (function_calls p))); [by left|by right].
Qed.

Lemma recommendations_spec_witness :
  ∃ r1 r3 r4 : list string,
    _generate_performance_recommendations (fresh_profile "e1" 0)
    = r1 ++ [] ++ r3 ++ r4.
Proof.
  destruct (recommendations_spec (fresh_profile "e1" 0))
    as (r1 & r2 & r3 & r4 & Heq & _ & [[Hgt _]|[_ Hr2]] & _).
  - vm_compute in Hgt. discriminate Hgt.
  - rewrite Hr2 in Heq. exists r1, r3, r4. exact Heq.
Defined.

(** The memory advice is given only for a memory usage above 256. *)
Lemma rec_memory_only_when_high (p : PerformanceProfile) :
  rec_memory ∈ _generate_performance_recommendations p →
  (256 # 1 < memory_usage_mb p)%Q.
Proof.
  unfold _generate_performance_recommendations.
  destruct (Qgtb (memory_usage_mb p) (256 # 1)) eqn:Hm;
    [intros _; by apply Qgtb_true|].
  rewrite !elem_of_app. intros [Hin|[Hin|[Hin|Hin]]]; exfalso.
  - destruct (duration_ms p) as [d|]; [|by apply elem_of_nil in Hin].
    destruct (negb (Qeq_bool d 0) && Qgtb d (3000 # 1));
      [apply list_elem_of_singleton in Hin; discriminate Hin
      |by apply elem_of_nil in Hin].
  - by apply elem_of_nil in Hin.
  - destruct (filter _ (function_calls p));
      [by apply elem_of_nil in Hin
      |apply list_elem_of_singleton in Hin; discriminate Hin].
  - destruct (100 <? length (function_calls p))%nat;
      [apply list_elem_of_singleton in Hin; discriminate Hin
      |by apply elem_of_nil in Hin].
Qed.

Lemma step_resources_unmeasured s call :
  resources_unmeasured s → resources_unmeasured (step s call).
Proof.
  intros Hco. destruct call as [op now].
  destruct op as [name value tags mtype|eid metadata|eid status error
                 |eid fn dur success|send_ok|send_ok| |ws|ws];
    unfold step; simpl; try done.
  - intros k p. simpl. intros Hl.
    apply lookup_insert_Some in Hl as [[_ <-]|[_ Hl]]; [done|by apply (Hco k)].
  - intros k p Hl.
    destruct (performance_profiles s !! eid) as [p0|] eqn:Hp0.
    + rewrite (end_execution_tracking_profile_full _ _ _ _ _ p0 Hp0) in Hl.
      apply lookup_insert_Some in Hl as [[_ <-]|[_ Hl]];
        [simpl; by apply (Hco eid p0) | by apply (Hco k)].
    + unfold end_execution_tracking in Hl. rewrite Hp0 in Hl.
      by apply (Hco k).
  - intros k p. unfold record_function_call.
    destruct (performance_profiles s !! eid) as [p0|] eqn:Hp0;
      [|by apply Hco].
    simpl. intros Hl.
    apply lookup_insert_Some in Hl as [[_ <-]|[_ Hl]];
      [simpl; by apply (Hco eid p0) | by apply (Hco k)].
  - intros k p.
    destruct (run_task_frame send_ok now s) as (_ & -> & _). apply Hco.
  - intros k p.
    destruct (monitoring_tick_frame send_ok now s) as (_ & -> & _). apply Hco.
  - intros k p Hl. apply cleanup_profiles_lookup in Hl. by apply (Hco k).
Qed.

(** X15: no call of the service ever measures resources: in every report
    obtained after a history of calls on a fresh service the CPU, memory,
    network and disk figures are the zeros written at the start, so the
    memory advice is never among the recommendations. *)
Theorem resources_never_measured (calls : list (Op * Q)) (eid : string)
    (r : Report) :
  (get_performance_report eid (run calls new_service)).1 = Some r →
  cpu_usage (rp_performance_profile r) = 0%Q ∧
  memory_usage_mb (rp_performance_profile r) = 0%Q ∧
  network_io_kb (rp_performance_profile r) = 0%Q ∧
  disk_io_kb (rp_performance_profile r) = 0%Q ∧
  rec_memory ∉ rp_recommendations r.
Proof.
  assert (resources_unmeasured (run calls new_service)) as Hco.
  { apply run_invariant; [apply step_resources_unmeasured|].
    intros k p Hl. simpl in Hl. by rewrite lookup_empty in Hl. }
  unfold get_performance_report.
  destruct (performance_profiles (run calls new_service) !! eid) as [p|] eqn:Hp;
    [|done].
  simpl. intros [= <-]. simpl.
  destruct (Hco eid p Hp) as (Hcpu & Hmem & Hnet & Hdisk).
  repeat (split; [done|]).
  intros Hin. apply rec_memory_only_when_high in Hin.
  rewrite Hmem in Hin. revert Hin. unfold Qlt. simpl. lia.
Qed.

Lemma resources_never_measured_witness :
  ∃ r, (get_performance_report "e1"
          (run [(OpStart "e1" ∅, 0%Q);
                (OpRecordCall "e1" "agent_manager.execute_agent" (2500 # 1)
                   true, 3 # 1);
                (OpEnd "e1" "completed" None, 4 # 1)] new_service)).1 = Some r ∧
       memory_usage_mb (rp_performance_profile r) = 0%Q ∧
       (rec_memory ∉ rp_recommendations r) ∧
       rp_recommendations r
       = [rec_duration; rec_slow_functions ["agent_manager.execute_agent"]].
Proof.
  eexists. split; [vm_compute; reflexivity|].
  split; [|split; [|vm_compute; reflexivity]];
    eapply (resources_never_measured
              [(OpStart "e1" ∅, 0%Q);
               (OpRecordCall "e1" "agent_manager.execute_agent" (2500 # 1)
                  true, 3 # 1);
               (OpEnd "e1" "completed" None, 4 # 1)] "e1");
    vm_compute; reflexivity.
Defined.

(** ** The queue of detached tasks *)

Lemma exec_task_pending t send_ok now s :
  pending_tasks (exec_task t send_ok now s).1 = pending_tasks s ∧
  (length (exec_task t send_ok now s).2 ≤ 1)%nat.
Proof.
  destruct t as [m|level title msg meta];
    unfold exec_task, _check_metric_thresholds, _create_alert,
      _broadcast_alert, broadcast; simpl.
  - destruct (alert_thresholds s !! metric_name m) as [th|];
      [|simpl; split; [done|lia]].
    destruct (Qgeb _ _); [|destruct (Qgeb _ _)]; simpl;
      repeat case_decide; simpl; (split; [done|lia]).
  - repeat case_decide; simpl; (split; [done|lia]).
Qed.

Lemma run_task_pending send_ok now s :
  pending_tasks (run_task send_ok now s).1 = drop 1 (pending_tasks s) ∧
  (length (run_task send_ok now s).2 ≤ min 1 (length (pending_tasks s)))%nat.
Proof.
  unfold run_task. destruct (pending_tasks s) as [|t rest] eqn:Hp.
  - simpl. by rewrite Hp.
  - destruct (exec_task_pending t send_ok now (set_pending_tasks rest s))
      as [-> Hlen]. simpl. rewrite drop_0. split; [done|lia].
Qed.

Lemma run_tasks_S n send_ok now s :
  run_tasks (S n) send_ok now s
  = ((run_tasks n send_ok now (run_task send_ok now s).1).1,
     (run_task send_ok now s).2
       ++ (run_tasks n send_ok now (run_task send_ok now s).1).2).
Proof.
  simpl. destruct (run_task send_ok now s) as [s1 c1]. simpl.
  by destruct (run_tasks n send_ok now s1).
Qed.

(** X16: running detached tasks only consumes the queue: after [n] runs
    the [n] oldest pending tasks are gone, the others are left in their
    order, no task was added, and at most one alert was created per task
    that ran. *)
Theorem task_queue_drains (n : nat) (send_ok : nat → bool) (now : Q)
    (s : Service) :
  pending_tasks (run_tasks n send_ok now s).1 = drop n (pending_tasks s) ∧
  (length (run_tasks n send_ok now s).2
   ≤ min n (length (pending_tasks s)))%nat.
Proof.
  revert s. induction n as [|n IH]; intros s.
  - simpl. by rewrite drop_0.
  - rewrite run_tasks_S. simpl fst. simpl snd.
    destruct (IH (run_task send_ok now s).1) as [-> Hlen].
    destruct (run_task_pending send_ok now s) as [Hp Hone].
    rewrite Hp in Hlen |- *. rewrite drop_drop. split; [done|].
    rewrite length_app. rewrite length_drop in Hlen. lia.
Qed.

Lemma run_task_unregistered send_ok now s m rest :
  pending_tasks s = CheckMetricThresholds m :: rest →
  alert_thresholds s !! metric_name m = None →
  run_task send_ok now s = (set_pending_tasks rest s, []).
Proof.
  intros Hp Hth. unfold run_task. rewrite Hp. simpl.
  unfold _check_metric_thresholds. simpl. by rewrite Hth.
Qed.

Lemma run_task_create_alert send_ok now s level title message metadata rest :
  pending_tasks s = CreateAlert level title message metadata :: rest →
  run_task send_ok now s
  = _create_alert level title message metadata send_ok now
      (set_pending_tasks rest s).
Proof. intros Hp. unfold run_task. by rewrite Hp. Qed.

Lemma run_task_idle send_ok now s :
  pending_tasks s = [] → run_task send_ok now s = (s, []).
Proof. intros Hp. unfold run_task. by rewrite Hp. Qed.

(** The tasks [end_execution_tracking] spawns for a known id. *)
Lemma end_execution_tracking_pending eid status error now s p :
  performance_profiles s !! eid = Some p →
  ∃ m1 m2 : Metric,
    metric_name m1 = "execution_duration_ms" ∧
    metric_value m1 = ((now - start_time p) * (1000 # 1))%Q ∧
    metric_name m2 = "active_executions" ∧
    pending_tasks (end_execution_tracking eid status error now s)
    = pending_tasks s ++
        [CheckMetricThresholds m1; CheckMetricThresholds m2] ++
        (if Qgtb ((now - start_time p) * (1000 # 1)) (5000 # 1)
         then [CreateAlert WARNING "Slow Execution Detected"
                 (MsgSlowExecution eid ((now - start_time p) * (1000 # 1)))
                 (MetaExecution eid ((now - start_time p) * (1000 # 1)))]
         else []).
Proof.
  intros Hl. unfold end_execution_tracking. rewrite Hl. simpl.
  destruct (Qgtb ((now - start_time p) * (1000 # 1)) (5000 # 1));
    destruct (active_executions s !! eid); simpl;
    eexists; eexists;
    (split; [|split; [|split; [|rewrite <- ?app_assoc; reflexivity]]]);
    reflexivity.
Qed.

(** ** Slow executions *)

(** X17: under the thresholds of [__init__], ending a known execution on
    an idle event loop and running the three tasks this can spawn empties
    the queue and creates exactly one alert, a WARNING titled "Slow
    Execution Detected", when the execution took more than 5000 ms (its
    profile is then tagged "slow_execution"), and no alert and no tag when
    it took at most 5000 ms. *)
Theorem slow_execution_alert (eid status : string) (error : option string)
    (now now' : Q) (send_ok : nat → bool) (s : Service)
    (p : PerformanceProfile) :
  performance_profiles s !! eid = Some p →
  alert_thresholds s = default_thresholds →
  pending_tasks s = [] →
  let d := ((now - start_time p) * (1000 # 1))%Q in
  let s' := end_execution_tracking eid status error now s in
  let r := run_tasks 3 send_ok now' s' in
  pending_tasks r.1 = [] ∧
  ((5000 # 1 < d)%Q →
   (∃ p', performance_profiles s' !! eid = Some p' ∧
          bottlenecks p' = bottlenecks p ++ ["slow_execution"]) ∧
   ∃ a, r.2 = [a] ∧ alert_level a = WARNING ∧
        alert_title a = "Slow Execution Detected" ∧
        alert_message a = MsgSlowExecution eid d ∧
        alerts r.1 = <[alert_id a := a]> (alerts s)) ∧
  ((d <= 5000 # 1)%Q →
   (∃ p', performance_profiles s' !! eid = Some p' ∧
          bottlenecks p' = bottlenecks p) ∧
   r.2 = [] ∧ alerts r.1 = alerts s).
Proof.
  intros Hl Hth Hidle d s' r.
  destruct (end_execution_tracking_pending eid status error now s p Hl)
    as (m1 & m2 & Hn1 & _ & Hn2 & Hpend).
  fold d s' in Hpend. rewrite Hidle in Hpend. simpl in Hpend.
  destruct (end_execution_tracking_frame eid status error now s)
    as (Hal & _ & _ & _ & _ & Hth').
  fold s' in Hal, Hth'. rewrite Hth in Hth'.
  pose proof (end_execution_tracking_profile_full eid status error now s p Hl)
    as Hprof. fold d s' in Hprof.
  assert (run_task send_ok now' s'
          = (set_pending_tasks
               (CheckMetricThresholds m2 ::
                  (if Qgtb d (5000 # 1)
                   then [CreateAlert WARNING "Slow Execution Detected"
                           (MsgSlowExecution eid d) (MetaExecution eid d)]
                   else [])) s', [])) as H1.
  { apply (run_task_unregistered _ _ _ m1); [exact Hpend|].
    by rewrite Hth', Hn1. }
  set (s1 := set_pending_tasks _ s') in H1.
  assert (run_task send_ok now' s1
          = (set_pending_tasks
               (if Qgtb d (5000 # 1)
                then [CreateAlert WARNING "Slow Execution Detected"
                        (MsgSlowExecution eid d) (MetaExecution eid d)]
                else []) s1, [])) as H2.
  { apply (run_task_unregistered _ _ _ m2); [reflexivity|].
    simpl. by rewrite Hth', Hn2. }
  set (s2 := set_pending_tasks _ s1) in H2.
  subst r. rewrite !run_tasks_S. rewrite H1. cbn [fst snd].
  rewrite H2. cbn [fst snd]. simpl run_tasks. cbn [fst snd].
  rewrite !app_nil_l, app_nil_r.
  destruct (Qgtb d (5000 # 1)) eqn:Hslow.
  - apply Qgtb_true in Hslow.
    rewrite (run_task_create_alert send_ok now' s2 WARNING
               "Slow Execution Detected" (MsgSlowExecution eid d)
               (MetaExecution eid d) []) by reflexivity.
    split; [|split].
    + unfold _create_alert, _broadcast_alert, broadcast. simpl.
      by case_decide.
    + intros _. split.
      * eexists. rewrite Hprof, lookup_insert_eq. done.
      * eexists. split; [reflexivity|]. rewrite create_alert_alerts.
        simpl. by rewrite Hal.
    + intros Hle. by apply Qlt_not_le in Hslow.
  - apply Qgtb_false in Hslow.
    rewrite (run_task_idle send_ok now' s2) by reflexivity.
    split; [done|]. split.
    + intros Hgt. by apply Qlt_not_le in Hgt.
    + intros _. split; [|done].
      eexists. rewrite Hprof, lookup_insert_eq. split; [done|].
      simpl. by rewrite app_nil_r.
Qed.

Lemma slow_execution_alert_witness :
  (∃ a, (run_tasks 3 all_delivered (7 # 1)
           (end_execution_tracking "e1" "completed" None (6 # 1)
              (set_pending_tasks [] started_service))).2 = [a] ∧
        alert_level a = WARNING ∧
        alert_title a = "Slow Execution Detected") ∧
  (run_tasks 3 all_delivered (7 # 1)
     (end_execution_tracking "e1" "completed" None (5 # 1)
        (set_pending_tasks [] started_service))).2 = [].
Proof.
  split.
  - destruct (slow_execution_alert "e1" "completed" None (6 # 1) (7 # 1)
                all_delivered (set_pending_tasks [] started_service)
                (fresh_profile "e1" 0))
      as (_ & Hslow & _); [reflexivity..|].
    destruct Hslow as (_ & a & Hr & Hlev & Htitle & _);
      [vm_compute; reflexivity|].
    exists a. split; [exact Hr|]. split; [exact Hlev | exact Htitle].
  - destruct (slow_execution_alert "e1" "completed" None (5 # 1) (7 # 1)
                all_delivered (set_pending_tasks [] started_service)
                (fresh_profile "e1" 0))
      as (_ & _ & Hfast); [reflexivity..|].
    destruct Hfast as (_ & Hr & _); [vm_compute; discriminate|].
    exact Hr.
Defined.

(** ** A tracked execution from start to report *)


(** ** Ticks within one minute *)

Lemma monitoring_tick_minute_named send_ok now s name :
  values_named name (in_current_minute now (metrics_buffer s)) ≠ [] →
  minute_metrics (monitoring_tick send_ok now s).1 !! name
  = Some (deque_append MINUTE_MAXLEN
            (window_point (floor_div now 60 * 60)
               (values_named name (in_current_minute now (metrics_buffer s))))
            (default [] (minute_metrics s !! name))).
Proof.
  intros Hne. rewrite monitoring_tick_minute. unfold _update_aggregations.
  simpl. rewrite aggregate_fold_lookup, group_by_name_lookup.
  fold (in_current_minute now (metrics_buffer s)).
  unfold values_named in *.
  destruct (filter (λ m, metric_name m = name)
                   (in_current_minute now (metrics_buffer s))) as [|m l];
    [done|]. reflexivity.
Qed.

(** X19: every tick appends a point, also when the minute has not changed:
    two ticks in the same calendar minute, with no metric recorded in
    between, leave the same point twice at the end of the minute window of
    every name that has samples in that minute. *)
Theorem two_ticks_in_one_minute (send_ok1 send_ok2 : nat → bool)
    (now1 now2 : Q) (s : Service) (name : string) :
  floor_div now1 60 = floor_div now2 60 →
  values_named name (in_current_minute now1 (metrics_buffer s)) ≠ [] →
  let wp :=
    window_point (floor_div now1 60 * 60)
      (values_named name (in_current_minute now1 (metrics_buffer s))) in
  minute_metrics
    (monitoring_tick send_ok2 now2 (monitoring_tick send_ok1 now1 s).1).1
    !! name
  = Some (deque_append 60 wp
            (deque_append 60 wp (default [] (minute_metrics s !! name)))).
Proof.
  intros Hmin Hne wp.
  destruct (monitoring_tick_frame send_ok1 now1 s) as (Hbuf & _).
  assert (in_current_minute now2
            (metrics_buffer (monitoring_tick send_ok1 now1 s).1)
          = in_current_minute now1 (metrics_buffer s)) as Hsame.
  { rewrite Hbuf. unfold in_current_minute. by rewrite Hmin. }
  rewrite monitoring_tick_minute_named by (by rewrite Hsame).
  rewrite Hsame, <- Hmin.
  rewrite (monitoring_tick_minute_named send_ok1 now1 s name Hne).
  reflexivity.
Qed.

Lemma two_ticks_in_one_minute_witness :
  length <$>
    minute_metrics
      (monitoring_tick all_delivered (59 # 1)
         (monitoring_tick all_delivered (118 # 2) late_sample_service).1).1
      !! "cpu_usage_percent"
  = Some 2%nat.
Proof.
  rewrite (two_ticks_in_one_minute all_delivered all_delivered (118 # 2)
             (59 # 1) late_sample_service "cpu_usage_percent");
    [reflexivity | reflexivity | vm_compute; discriminate].
Defined.

(** ** The report of a purged execution *)

(** X20: once a sweep runs more than 86400 time units after the start of
    an execution, the report endpoint answers 404 for it, while its entry
    in [active_executions] is still there. *)
Theorem purged_execution_report (now : Q) (s : Service) (eid : string)
    (p : PerformanceProfile) :
  performance_profiles s !! eid = Some p →
  (86400 # 1 < now - start_time p)%Q →
  get_execution_report eid (cleanup_tick now s).2 = inl 404 ∧
  active_executions (cleanup_tick now s).2 !! eid
  = active_executions s !! eid.
Proof.
  intros Hl Hold. split; [|reflexivity].
  unfold get_execution_report, get_performance_report.
  assert (performance_profiles (cleanup_tick now s).2 !! eid = None) as ->;
    [|done].
  unfold cleanup_tick. simpl.
  rewrite (sweep_lookup (λ p, Qgtb (now - start_time p) (86400 # 1))), Hl.
  apply Qgtb_true in Hold. by rewrite Hold.
Qed.

Lemma purged_execution_report_witness :
  get_execution_report "e1" (cleanup_tick (90000 # 1) ended_service).2
  = inl 404 ∧
  is_Some (active_executions (cleanup_tick (90000 # 1) ended_service).2
             !! "e1").
Proof.
  destruct (purged_execution_report (90000 # 1) ended_service "e1"
              {| execution_id := "e1"; start_time := 0;
                 end_time := Some 1%Q;
                 duration_ms := Some ((1 - 0) * (1000 # 1))%Q;
                 cpu_usage := 0; memory_usage_mb := 0; network_io_kb := 0;
                 disk_io_kb := 0; function_calls := []; bottlenecks := [] |})
    as [H404 Hact]; [reflexivity | vm_compute; reflexivity |].
  split; [exact H404|]. rewrite Hact. vm_compute. by eexists.
Defined.

(** ** Names that can raise a threshold alert *)

(** X21: after any history of calls on a fresh service a threshold check
    creates an alert only for a metric called "response_time_ms",
    "error_rate", "memory_usage_mb" or "cpu_usage_percent"; for every other
    name, among them the names the service itself records, it returns the
    state unchanged. *)
Theorem only_registered_names_alert (calls : list (Op * Q)) (m : Metric)
    (send_ok : nat → bool) (now : Q) :
  let s := run calls new_service in
  _check_metric_thresholds m send_ok now s = (s, []) ∨
  metric_name m = "response_time_ms" ∨ metric_name m = "error_rate" ∨
  metric_name m = "memory_usage_mb" ∨ metric_name m = "cpu_usage_percent".
Proof.
  intros s.
  assert (alert_thresholds s = default_thresholds) as Hth.
  { assert (bounded s) as (_ & _ & _ & _ & Hth)
      by (apply run_invariant; [apply step_bounded | apply new_service_bounded]).
    exact Hth. }
  unfold _check_metric_thresholds. rewrite Hth.
  destruct (default_thresholds !! metric_name m) as [th|] eqn:Hl; [|by left].
  right. unfold default_thresholds in Hl.
  repeat (apply lookup_insert_Some in Hl as [[<- _]|[_ Hl]]; [tauto|]).
  by rewrite lookup_empty in Hl.
Qed.

(** ** Order of the buffer *)

Lemma ordered_until_later t t' ms :
  (t <= t')%Q → ordered_until t ms → ordered_until t' ms.
Proof.
  intros Hle [Hord Hmax]. split; [done|].
  intros m Hm. eapply Qle_trans; [by apply Hmax | done].
Qed.

Lemma ordered_until_append t (m : Metric) ms :
  (t <= metric_timestamp m)%Q → ordered_until t ms →
  ordered_until (metric_timestamp m) (deque_append METRICS_MAXLEN m ms).
Proof.
  intros Hle [Hord Hmax].
  assert (ordered_until (metric_timestamp m) (ms ++ [m])) as [Hord' Hmax'].
  { split.
    - intros i j mi mj Hij Hi Hj.
      apply lookup_app_Some in Hj as [Hj|[Hlen Hj]].
      + apply lookup_app_Some in Hi as [Hi|[Hlen' _]].
        * by apply (Hord i j).
        * apply lookup_lt_Some in Hj. lia.
      + apply list_lookup_singleton_Some in Hj as [_ <-].
        apply lookup_app_Some in Hi as [Hi|[_ Hi]].
        * eapply Qle_trans; [|exact Hle].
          apply Hmax. by eapply list_elem_of_lookup_2.
        * apply list_lookup_singleton_Some in Hi as [_ <-]. apply Qle_refl.
    - intros m' Hm'. apply elem_of_app in Hm' as [Hm'|Hm'].
      + eapply Qle_trans; [by apply Hmax | done].
      + apply list_elem_of_singleton in Hm' as ->. apply Qle_refl. }
  unfold deque_append. destruct (_ <? _)%N; [|done].
  split.
  - intros i j mi mj Hij Hi Hj. rewrite lookup_drop in Hi, Hj.
    apply (Hord' (1 + i)%nat (1 + j)%nat); [lia|done..].
  - intros m' Hm'. apply Hmax'. by apply subseteq_drop in Hm'.
Qed.

Lemma step_ordered_until t s call :
  (t <= call.2)%Q → ordered_until t (metrics_buffer s) →
  ordered_until call.2 (metrics_buffer (step s call)).
Proof.
  intros Hle Hord. destruct call as [op now]. simpl in Hle |- *.
  pose proof (ordered_until_later _ _ _ Hle Hord) as Hnow.
  destruct op as [name value tags mtype|eid metadata|eid status error
                 |eid fn dur success|send_ok|send_ok| |ws|ws];
    unfold step; simpl; try done.
  - by apply (ordered_until_append t
                {| metric_name := name; metric_value := value;
                   metric_timestamp := now; metric_tags := tags;
                   metric_type := mtype |}).
  - by apply (ordered_until_append t
                {| metric_name := "active_executions";
                   metric_timestamp := now; metric_type := GAUGE |}).
  - unfold end_execution_tracking.
    destruct (performance_profiles s !! eid) as [p|]; [|done]. simpl.
    destruct (active_executions s !! eid); destruct (Qgtb _ _); simpl;
      apply (ordered_until_append now
               {| metric_name := "active_executions";
                  metric_timestamp := now; metric_type := GAUGE |});
      try apply Qle_refl;
      by apply (ordered_until_append t
                  {| metric_name := "execution_duration_ms";
                     metric_timestamp := now; metric_type := TIMER |}).
  - unfold record_function_call.
    destruct (performance_profiles s !! eid) as [p|]; [|done]. simpl.
    by apply (ordered_until_append t
                {| metric_name := "function_duration_ms";
                   metric_timestamp := now; metric_type := TIMER |}).
  - by destruct (run_task_frame send_ok now s) as (-> & _).
  - by destruct (monitoring_tick_frame send_ok now s) as (-> & _).
Qed.

Lemma run_ordered_until calls t s :
  clock_nondecreasing t calls → ordered_until t (metrics_buffer s) →
  ∃ t', ordered_until t' (metrics_buffer (run calls s)).
Proof.
  unfold run. revert t s.
  induction calls as [|call calls IH]; intros t s Hclock Hord; simpl.
  - by exists t.
  - destruct Hclock as [Hle Hclock].
    apply (IH call.2 (step s call) Hclock).
    by apply (step_ordered_until t).
Qed.

(** X22: when the clock readings of a history of calls never go back, the
    metrics buffer is ordered by timestamp afterwards: of two buffered
    metrics the one nearer the right end is never the older one, so the
    last entries of a name are its most recent samples. *)
Theorem buffer_in_time_order (calls : list (Op * Q)) (t0 : Q)
    (i j : nat) (mi mj : Metric) :
  clock_nondecreasing t0 calls →
  (i ≤ j)%nat →
  metrics_buffer (run calls new_service) !! i = Some mi →
  metrics_buffer (run calls new_service) !! j = Some mj →
  (metric_timestamp mi <= metric_timestamp mj)%Q.
Proof.
  intros Hclock Hij Hi Hj.
  destruct (run_ordered_until calls t0 new_service Hclock) as [t' [Hord _]].
  - split; [|intros m Hm; by apply elem_of_nil in Hm].
    intros i' j' mi' mj' _ Hi'. simpl in Hi'. by rewrite lookup_nil in Hi'.
  - by apply (Hord i j).
Qed.

Lemma buffer_in_time_order_witness :
  metric_timestamp <$>
    metrics_buffer
      (run [(OpStart "e1" ∅, 0%Q); (OpEnd "e1" "completed" None, 6 # 1)]
         new_service) !! 2%nat = Some (6 # 1)%Q ∧
  (0 <= 6 # 1)%Q.
Proof.
  split; [vm_compute; reflexivity|].
  apply (buffer_in_time_order
           [(OpStart "e1" ∅, 0%Q); (OpEnd "e1" "completed" None, 6 # 1)]
           0 0 2
           (metric_of_call {| mc_name := "active_executions"; mc_value := 1;
                              mc_tags := {["type" := "execution_start"]};
                              mc_type := GAUGE; mc_now := 0 |})
           (metric_of_call {| mc_name := "active_executions"; mc_value := 0;
                              mc_tags := {["type" := "execution_end"]};
                              mc_type := GAUGE; mc_now := 6 # 1 |})).
  - simpl. split; [apply Qle_refl|]. split; [|done]. unfold Qle. simpl. lia.
  - lia.
  - vm_compute. reflexivity.
  - vm_compute. reflexivity.
Defined.

(** ** The "active_executions" gauge *)

Lemma last_deque_append {A} (maxlen : N) (x : A) (d : list A) :
  (1 ≤ maxlen)%N → last (deque_append maxlen x d) = Some x.
Proof.
  intros Hcap. rewrite deque_append_full.
  destruct (N.ltb_spec (N.of_nat (length d)) maxlen) as [Hlt|Hge].
  - apply last_snoc.
  - destruct d as [|y d]; [simpl in Hge; lia|]. simpl. rewrite drop_0.
    apply last_snoc.
Qed.

Lemma count_running_le_size (s : Service) :
  (count_running s ≤ size (active_executions s))%nat.
Proof.
  unfold count_running.
  etransitivity; [apply length_filter|].
  by rewrite length_fmap, length_map_to_list.
Qed.

(** X23: the last metric in the buffer after a start is the gauge
    "active_executions" with the number of all entries of the execution
    table, ended executions included, which is never below the number of
    running executions; after the end of a known execution it is the same
    gauge with the number of running executions only. *)
Theorem active_executions_gauge (eid : string) (now : Q) (s : Service) :
  (∀ metadata : gmap string string,
     let s' := (start_execution_tracking eid metadata now s).2 in
     ∃ m, last (metrics_buffer s') = Some m ∧
          metric_name m = "active_executions" ∧
          metric_value m
          = inject_Z (Z.of_nat (size (active_executions s'))) ∧
          (count_running s' ≤ size (active_executions s'))%nat) ∧
  (∀ (status : string) (error : option string) (p : PerformanceProfile),
     performance_profiles s !! eid = Some p →
     let s' := end_execution_tracking eid status error now s in
     ∃ m, last (metrics_buffer s') = Some m ∧
          metric_name m = "active_executions" ∧
          metric_value m = inject_Z (Z.of_nat (count_running s'))).
Proof.
  split.
  - intros metadata s'. eexists. split; [|split; [|split]].
    + unfold s', start_execution_tracking. simpl.
      by apply last_deque_append.
    + reflexivity.
    + reflexivity.
    + apply count_running_le_size.
  - intros status error p Hl s'. subst s'. unfold end_execution_tracking.
    rewrite Hl. simpl.
    destruct (active_executions s !! eid); destruct (Qgtb _ _); simpl;
      eexists; (split; [by apply last_deque_append|]); done.
Qed.

Lemma active_executions_gauge_witness :
  ∃ m, last (metrics_buffer
               (end_execution_tracking "e1" "completed" None 1
                  started_service)) = Some m ∧
       metric_name m = "active_executions" ∧
       metric_value m
       = inject_Z (Z.of_nat
                     (count_running
                        (end_execution_tracking "e1" "completed" None 1
                           started_service))).
Proof.
  destruct (active_executions_gauge "e1" 1 started_service) as [_ Hend].
  apply (Hend "completed" None (fresh_profile "e1" 0)). reflexivity.
Defined.
